(** * farmtech2: harvest records, efficiency metric and statistics

    A shallow embedding of the sugarcane-harvest monitor:
    - [colheita.py]          the [Colheita] entity, its validators and its
                              efficiency calculation;
    - [colheita_service.py]  the in-memory store, the statistics and the
                              report;
    - [main.py]              the stand-alone [calcular_eficiencia].

    Modelling conventions.
    - The operations of Python's [float] that the program uses form the
      interface [Aritmetica].  It has two instances: IEEE binary64 on
      primitive floats, which is what the interpreter computes, and exact
      rationals.  Every definition of the program is written once, against
      the interface.  What depends only on the control flow is proved for
      every instance, hence for binary64; what needs the laws of arithmetic
      is proved for the exact instance and says so.
    - [round(x, 2)] and the [:.2f] format round the exact value of their
      argument half-to-even, as CPython does.  [OverflowError] for integers
      too large for a [float] is not modelled.
    - Python [str] is [string]; [lower], [strip], [capitalize] and the regular
      expression class [\d] are modelled on the ASCII range.
    - A raised exception is the [Raise] branch of [result]; [print] calls are
      not modelled.
    - A [dict] is a [gmap string pyval]; the list held by the service is a
      [list Colheita] updated by index. *)

From Stdlib Require Import ZArith QArith Qround Qabs Lia Lqa Ascii String.
From Stdlib Require Import PrimFloat SpecFloat FloatOps.
From stdpp Require Import base option list strings gmap pretty.

Local Open Scope Q_scope.

Set Warnings "-register-all".

(** ** Exceptions *)

(** Which check of [Colheita.__init__] raised the [ValueError]; the last one
    is the [ValueError] of a builtin ([float], [int], [datetime]). *)
Inductive motivo : Type :=
| IdLoteInvalido
| TipoInvalido
| DataInvalida
| PrevistoInvalido
| ColhidoInvalido
| Conversao.

Inductive exn : Type :=
| ValueError (m : motivo)
| KeyError (k : string)
| TypeError
| AttributeError
| ZeroDivisionError
| OverflowError.

Inductive result (A : Type) : Type :=
| Ok (a : A)
| Raise (e : exn).
Arguments Ok {A} a.
Arguments Raise {A} e.

#[global] Instance result_ret : MRet result := fun A a => Ok a.
#[global] Instance result_bind : MBind result := fun A B f m =>
  match m with
  | Ok a => f a
  | Raise e => Raise e
  end.

Definition is_ValueError (e : exn) : bool :=
  match e with ValueError _ => true | _ => false end.
Definition is_TypeError (e : exn) : bool :=
  match e with TypeError => true | _ => false end.

(** [try: m  except <apanha>: return v] *)
Definition try_except {A} (apanha : exn -> bool) (m : result A) (v : A) : result A :=
  match m with
  | Ok a => Ok a
  | Raise e => if apanha e then Ok v else Raise e
  end.

(** ** Console *)

(** What a function that reads from the console makes of the lines still to
    be typed: it returns a value and the lines left over, it raises, or it
    asks for a line when none is left, where [input] raises [EOFError].
    Prompts and [print] calls are not modelled. *)
Inductive console (A : Type) : Type :=
| Devolve (a : A) (resto : list string)
| Levanta (e : exn)
| FimDaEntrada.
Arguments Devolve {A} a resto.
Arguments Levanta {A} e.
Arguments FimDaEntrada {A}.

(** [input(mensagem)] *)
Definition input (linhas : list string) : console string :=
  match linhas with
  | [] => FimDaEntrada
  | l :: resto => Devolve l resto
  end.

(** Sequencing inside a function that also holds a state [s]: an exception
    leaves the state as it is at that point. *)
Definition apos {S A B} (s : S) (m : console A)
    (k : A -> list string -> S * console B) : S * console B :=
  match m with
  | Devolve a resto => k a resto
  | Levanta e => (s, Levanta e)
  | FimDaEntrada => (s, FimDaEntrada)
  end.

(** ** Strings *)

(** The newline, as a one-character string. *)
Definition nl : string := String "010" EmptyString.

Definition py_isspace (a : ascii) : bool :=
  let n := nat_of_ascii a in
  ((9 <=? n) && (n <=? 13) || (28 <=? n) && (n <=? 32))%nat.

Definition is_digit (a : ascii) : bool :=
  let n := nat_of_ascii a in ((48 <=? n) && (n <=? 57))%nat.

Definition is_empty (s : string) : bool :=
  match s with EmptyString => true | _ => false end.

Fixpoint lstrip (s : string) : string :=
  match s with
  | EmptyString => EmptyString
  | String a s' => if py_isspace a then lstrip s' else s
  end.

Fixpoint rstrip (s : string) : string :=
  match s with
  | EmptyString => EmptyString
  | String a s' =>
      let r := rstrip s' in
      if is_empty r && py_isspace a then EmptyString else String a r
  end.

(** [s.strip()] *)
Definition strip (s : string) : string := rstrip (lstrip s).

Definition lower_ascii (a : ascii) : ascii :=
  let n := nat_of_ascii a in
  if ((65 <=? n) && (n <=? 90))%nat then ascii_of_nat (n + 32) else a.

Definition upper_ascii (a : ascii) : ascii :=
  let n := nat_of_ascii a in
  if ((97 <=? n) && (n <=? 122))%nat then ascii_of_nat (n - 32) else a.

Fixpoint str_map (f : ascii -> ascii) (s : string) : string :=
  match s with
  | EmptyString => EmptyString
  | String a s' => String (f a) (str_map f s')
  end.

(** [s.lower()] *)
Definition lower (s : string) : string := str_map lower_ascii s.

(** [s.capitalize()] *)
Definition capitalize (s : string) : string :=
  match s with
  | EmptyString => EmptyString
  | String a s' => String (upper_ascii a) (lower s')
  end.

(** [s.split('/')] *)
Fixpoint split_barra (s : string) : list string :=
  match s with
  | EmptyString => [EmptyString]
  | String a s' =>
      let r := split_barra s' in
      if Ascii.eqb a "/" then EmptyString :: r
      else match r with
           | h :: t => String a h :: t
           | [] => [String a EmptyString]
           end
  end.

Fixpoint digits_value (acc : Z) (s : string) : option Z :=
  match s with
  | EmptyString => Some acc
  | String a s' =>
      if is_digit a
      then digits_value (acc * 10 + Z.of_nat (nat_of_ascii a - 48))%Z s'
      else None
  end.

Fixpoint todos_digitos (s : string) : bool :=
  match s with
  | EmptyString => true
  | String a s' => is_digit a && todos_digitos s'
  end.

(** The optional sign in front of the digits. *)
Definition separa_sinal (t : string) : bool * string :=
  match t with
  | String "-" r => (true, r)
  | String "+" r => (false, r)
  | _ => (false, t)
  end.

(** [int(s)] for a string: surrounding whitespace is ignored, then an
    optional sign and a non-empty run of digits. *)
Definition py_int (s : string) : result Z :=
  let '(neg, body) := separa_sinal (strip s) in
  if is_empty body then Raise (ValueError Conversao)
  else match digits_value 0 body with
       | Some n => Ok (if neg : bool then (- n)%Z else n)
       | None => Raise (ValueError Conversao)
       end.

Fixpoint mapM {A B} (f : A -> result B) (l : list A) : result (list B) :=
  match l with
  | [] => Ok []
  | x :: l' => y ← f x; ys ← mapM f l'; Ok (y :: ys)
  end.

(** ** Dates: the constructor of [datetime.datetime] *)

Definition is_leap (y : Z) : bool :=
  ((y mod 4 =? 0) && (negb (y mod 100 =? 0) || (y mod 400 =? 0)))%Z.

Definition days_in_month (y m : Z) : Z :=
  if (m =? 2)%Z then (if is_leap y then 29 else 28)%Z
  else if ((m =? 4) || (m =? 6) || (m =? 9) || (m =? 11))%Z then 30%Z
  else 31%Z.

(** [datetime(ano, mes, dia)] *)
Definition datetime (ano mes dia : Z) : result (Z * Z * Z) :=
  if ((1 <=? ano) && (ano <=? 9999) && (1 <=? mes) && (mes <=? 12)
      && (1 <=? dia) && (dia <=? days_in_month ano mes))%Z
  then Ok (ano, mes, dia)
  else Raise (ValueError Conversao).

(** ** Numbers *)

(** The arithmetic of [float] as the program uses it.  [f_of_Z] is the
    conversion of an [int] (also the value of literals such as [0.0] and
    [100]); [f_div] is the quotient for a divisor that is not zero;
    [f_sum] is the builtin [sum]. *)
Class Aritmetica (F : Type) : Type := {
  f_of_Z : Z -> F;
  f_sub : F -> F -> F;
  f_mul : F -> F -> F;
  f_div : F -> F -> F;
  f_abs : F -> F;
  f_eqb : F -> F -> bool;
  f_leb : F -> F -> bool;
  f_ltb : F -> F -> bool;
  f_sum : list F -> F;
  f_round2 : F -> F;
  f_fmt2 : F -> string
}.

(** Nearest integer, ties to the even one. *)
Definition round_half_even (q : Q) : Z :=
  let f := Qfloor q in
  match Qcompare (q - inject_Z f)%Q (1 # 2)%Q with
  | Lt => f
  | Gt => (f + 1)%Z
  | Eq => if Z.even f then f else (f + 1)%Z
  end.

(** The text of [abs(x)] with two decimals, preceded by the sign. *)
Definition texto_2_casas (negativo : bool) (x : Q) : string :=
  let n := round_half_even (Qabs x * 100) in
  let frac := (n mod 100)%Z in
  (if negativo then "-" else "")
    +:+ pretty (n / 100)%Z +:+ "."
    +:+ (if (frac <? 10)%Z then "0" else "") +:+ pretty frac.

(** *** Exact rationals *)

Definition Qleb (x y : Q) : bool := Qle_bool x y.
Definition Qltb (x y : Q) : bool := negb (Qle_bool y x).

(** [round(x, 2)] *)
Definition py_round2 (x : Q) : Q := Qred (round_half_even (x * 100) # 100).

(** [f"{x:.2f}"] *)
Definition fmt2 (x : Q) : string := texto_2_casas (Qltb x 0) x.

#[global] Instance aritmetica_exata : Aritmetica Q := {|
  f_of_Z := inject_Z;
  f_sub := Qminus;
  f_mul := Qmult;
  f_div := Qdiv;
  f_abs := Qabs;
  f_eqb := Qeq_bool;
  f_leb := Qleb;
  f_ltb := Qltb;
  f_sum := foldl Qplus 0;
  f_round2 := py_round2;
  f_fmt2 := fmt2
|}.

(** *** IEEE binary64 *)

(** The real number a finite [float] stands for. *)
Definition valor_exato (x : float) : option Q :=
  match Prim2SF x with
  | S754_zero _ => Some 0
  | S754_finite s m e =>
      let v := match e with
               | Z0 => inject_Z (Zpos m)
               | Zpos p => inject_Z (Zpos m * 2 ^ Zpos p)
               | Zneg p => Zpos m # (2 ^ p)
               end in
      Some (if s then - v else v)
  | S754_infinity _ | S754_nan => None
  end.

(** The [float] nearest to a rational, ties to even.  The quotient is taken
    with at least sixty significant bits and a last bit that records whether
    anything was left over, then rounded to 53 bits. *)
Definition float_of_Q (q : Q) : float :=
  let n := Qnum q in
  let d := Zpos (Qden q) in
  let k := Z.max 0 (60 + Z.log2 d - Z.log2 (Z.abs n)) in
  let a := (Z.abs n * 2 ^ k)%Z in
  let m := (2 * (a / d) + (if (a mod d =? 0)%Z then 0 else 1))%Z in
  SF2Prim (binary_normalize prec emax (if (n <? 0)%Z then (- m)%Z else m)
             (- k - 1) false).

(** [float(n)] for an [int] *)
Definition float_of_Z (n : Z) : float := SF2Prim (binary_normalize prec emax n 0 false).

(** [round(x, 2)]: infinities, NaN and zeros are returned as they are; a
    result that rounds to zero keeps the sign of [x]. *)
Definition round2_f64 (x : float) : float :=
  match valor_exato x with
  | None => x
  | Some q =>
      let n := round_half_even (q * 100) in
      if (n =? 0)%Z then (if PrimFloat.get_sign x then neg_zero else zero)
      else float_of_Q (n # 100)
  end.

(** [f"{x:.2f}"] *)
Definition fmt2_f64 (x : float) : string :=
  match valor_exato x with
  | Some q => texto_2_casas (PrimFloat.get_sign x) q
  | None =>
      if PrimFloat.is_nan x then "nan"
      else if PrimFloat.get_sign x then "-inf" else "inf"
  end.

(** [sum] of floats, added from left to right starting from the [int] zero
    (interpreters from 3.12 on compensate the rounding errors of the
    additions, which this does not model). *)
#[global] Instance aritmetica_binary64 : Aritmetica float := {|
  f_of_Z := float_of_Z;
  f_sub := PrimFloat.sub;
  f_mul := PrimFloat.mul;
  f_div := PrimFloat.div;
  f_abs := PrimFloat.abs;
  f_eqb := PrimFloat.eqb;
  f_leb := PrimFloat.leb;
  f_ltb := PrimFloat.ltb;
  f_sum := foldl PrimFloat.add zero;
  f_round2 := round2_f64;
  f_fmt2 := fmt2_f64
|}.

(** ** Python values *)

Inductive pyval (F : Type) : Type :=
| PNone
| PBool (b : bool)
| PInt (z : Z)
| PFloat (x : F)
| PStr (s : string)
| PList (l : list (pyval F))
| PDict (d : gmap string (pyval F)).
Arguments PNone {F}.
Arguments PBool {F} b.
Arguments PInt {F} z.
Arguments PFloat {F} x.
Arguments PStr {F} s.
Arguments PList {F} l.
Arguments PDict {F} d.

(** ** Conversion of integers *)

(** Whether [float(z)] is finite: an [int] is rounded to the nearest float,
    ties to even, so the conversion overflows from [2^1024 - 2^970] on. *)
Definition int_cabe_em_float (z : Z) : bool :=
  (Z.abs z + Z.shiftl 1 970 <? Z.shiftl 1 1024)%Z.

(** ** Division *)

(** [x / y] *)
Definition py_div {F} `{!Aritmetica F} (x y : F) : result F :=
  if f_eqb y (f_of_Z 0) then Raise ZeroDivisionError else Ok (f_div x y).

(** ** main.py *)

Module main.
Section main.
Context {F : Type} `{!Aritmetica F}.

(** [calcular_eficiencia(previsto, colhido)] *)
Definition calcular_eficiencia (previsto colhido : F) : result (F * F) :=
  if f_leb previsto (f_of_Z 0) then Ok (f_of_Z 0, f_of_Z 0)
  else
    q ← py_div colhido previsto;
    let eficiencia := f_mul q (f_of_Z 100) in
    let perda := f_sub (f_of_Z 100) eficiencia in
    Ok (f_round2 eficiencia, f_round2 perda).

(** The builtin [float] on what the user typed: [None] when it raises
    [ValueError]. *)
Variable float_of_str : string -> option F.

(** [datetime.strptime(data, "%d/%m/%Y")] succeeds. *)
Variable strptime_dmY : string -> bool.

(** [datetime.now().strftime("%d/%m/%Y")] *)
Variable hoje : string.

(** [validar_numero(mensagem)], with [tipo=float] *)
Fixpoint validar_numero (linhas : list string) : console F :=
  match linhas with
  | [] => FimDaEntrada
  | l :: resto =>
      match float_of_str l with
      | Some valor => Devolve valor resto
      | None => validar_numero resto
      end
  end.

(** [validar_data(mensagem)] *)
Fixpoint validar_data (linhas : list string) : console string :=
  match linhas with
  | [] => FimDaEntrada
  | data :: resto =>
      if is_empty data then Devolve hoje resto
      else if strptime_dmY data then Devolve data resto
      else validar_data resto
  end.

(** [c[k]] for an entry of the global list *)
Definition item (c : pyval F) (k : string) : result (pyval F) :=
  match c with
  | PDict d =>
      match d !! k with
      | Some v => Ok v
      | None => Raise (KeyError k)
      end
  | _ => Raise TypeError
  end.

(** [v == s] for a [str] [s] *)
Definition igual_a_str (v : pyval F) (s : string) : bool :=
  match v with
  | PStr t => String.eqb t s
  | _ => false
  end.

(** The [for] loop at the start of [registrar_colheita]: the index of the
    first entry whose ['id_lote'] is the id typed, if any. *)
Fixpoint procurar_lote (id_lote : string) (colheitas : list (pyval F))
  : result (option nat) :=
  match colheitas with
  | [] => Ok None
  | c :: resto =>
      v ← item c "id_lote";
      if igual_a_str v id_lote then Ok (Some O)
      else r ← procurar_lote id_lote resto; Ok (option_map S r)
  end.

(** The [while] loop that asks for the type until it is one of
    [('manual', 'mecanica')]. *)
Fixpoint ler_tipo (linhas : list string) : console string :=
  match linhas with
  | [] => FimDaEntrada
  | l :: resto =>
      let tipo := lower l in
      if bool_decide (tipo ∈ ["manual"; "mecanica"]) then Devolve tipo resto
      else ler_tipo resto
  end.

(** The dictionary [registrar_colheita] appends. *)
Definition dicionario_colheita (id_lote tipo data : string) (previsto colhido : F)
    (eficiencia perda : F) (obs : string) : gmap string (pyval F) :=
  <["id_lote" := PStr id_lote]>
  (<["tipo" := PStr tipo]>
  (<["data" := PStr data]>
  (<["previsto" := PFloat previsto]>
  (<["colhido" := PFloat colhido]>
  (<["eficiencia" := PFloat eficiencia]>
  (<["perda" := PFloat perda]>
  (<["obs" := PStr obs]> ∅))))))).

(** What [registrar_colheita] does once the lot is settled: it asks for the
    type, the two amounts, the date and the remarks, appends the new entry and
    waits for Enter. *)
Definition registrar_dados (id_lote : string) (colheitas : list (pyval F))
    (linhas : list string) : list (pyval F) * console () :=
  apos colheitas (ler_tipo linhas) (fun tipo linhas =>
  apos colheitas (validar_numero linhas) (fun previsto linhas =>
  apos colheitas (validar_numero linhas) (fun colhido linhas =>
  apos colheitas (validar_data linhas) (fun data linhas =>
  apos colheitas (input linhas) (fun obs linhas =>
  match calcular_eficiencia previsto colhido with
  | Raise e => (colheitas, Levanta e)
  | Ok (eficiencia, perda) =>
      let colheitas' :=
        colheitas ++ [PDict (dicionario_colheita id_lote tipo data previsto
                               colhido eficiencia perda obs)] in
      apos colheitas' (input linhas) (fun _ linhas =>
      (colheitas', Devolve () linhas))
  end))))).

(** [registrar_colheita()]: the global list [colheitas] after the call and how
    the call ended.  [colheitas.remove(c)] removes the entry at the index
    found, since no earlier entry carries the id. *)
Definition registrar_colheita (colheitas : list (pyval F)) (linhas : list string)
  : list (pyval F) * console () :=
  apos colheitas (input linhas) (fun id_lote linhas =>
  match procurar_lote id_lote colheitas with
  | Raise e => (colheitas, Levanta e)
  | Ok None => registrar_dados id_lote colheitas linhas
  | Ok (Some i) =>
      apos colheitas (input linhas) (fun resposta linhas =>
      if negb (String.eqb (lower resposta) "s")
      then (colheitas, Devolve () linhas)
      else registrar_dados id_lote (delete i colheitas) linhas)
  end).

End main.
End main.

(** ** config.py *)

(** The two constants that [colheita.py] imports from the configuration
    module.  Their values are not part of the sources, so every definition
    takes them from a [config]. *)
Record config (F : Type) : Type := {
  TIPOS_COLHEITA : list string;
  LIMITES_TONELADAS : F * F * F * F
}.
Arguments TIPOS_COLHEITA {F} c.
Arguments LIMITES_TONELADAS {F} c.

(** [LIMITES_TONELADAS[i]] for [i = 0 .. 3] *)
Definition limite0 {F} (cfg : config F) : F := let '(a, _, _, _) := LIMITES_TONELADAS cfg in a.
Definition limite1 {F} (cfg : config F) : F := let '(_, b, _, _) := LIMITES_TONELADAS cfg in b.
Definition limite2 {F} (cfg : config F) : F := let '(_, _, c, _) := LIMITES_TONELADAS cfg in c.
Definition limite3 {F} (cfg : config F) : F := let '(_, _, _, d) := LIMITES_TONELADAS cfg in d.

(** ** colheita.py *)

Module colheita.
Section colheita.
Context {F : Type} `{!Aritmetica F}.

(** The builtin [float] applied to a [str]: [None] when it raises
    [ValueError]. *)
Variable float_of_str : string -> option F.

(** [float(v)]: an [int] that does not round to a finite float raises
    [OverflowError]. *)
Definition py_float (v : pyval F) : result F :=
  match v with
  | PBool b => Ok (f_of_Z (if b then 1 else 0))
  | PInt z => if int_cabe_em_float z then Ok (f_of_Z z) else Raise OverflowError
  | PFloat x => Ok x
  | PStr s =>
      match float_of_str s with
      | Some x => Ok x
      | None => Raise (ValueError Conversao)
      end
  | PNone | PList _ | PDict _ => Raise TypeError
  end.

(** [v.lower()] *)
Definition py_lower (v : pyval F) : result string :=
  match v with
  | PStr s => Ok (lower s)
  | _ => Raise AttributeError
  end.

Definition is_None (v : pyval F) : bool :=
  match v with PNone => true | _ => false end.

(** The instance attributes of a [Colheita]. *)
Record Colheita : Type := {
  id_lote : string;
  tipo : string;
  data : string;
  previsto : F;
  colhido : F;
  obs : pyval F;
  eficiencia : F;
  perda : F
}.

(** [_validar_id_lote] *)
Definition _validar_id_lote (v : pyval F) : bool :=
  match v with
  | PStr s => negb (is_empty (strip s))
  | _ => false
  end.

(** [_validar_tipo] *)
Definition _validar_tipo (cfg : config F) (v : pyval F) : result bool :=
  t ← py_lower v;
  Ok (bool_decide (t ∈ TIPOS_COLHEITA cfg)).

(** [re.compile(r'^\d{2}/\d{2}/\d{4}$').match(s)]: ten characters, and
    [$] also matches just before a newline that ends the string. *)
Definition padrao_match (s : string) : bool :=
  match s with
  | String d1 (String d2 (String b1 (String m1 (String m2 (String b2
      (String a1 (String a2 (String a3 (String a4 fim))))))))) =>
      is_digit d1 && is_digit d2 && Ascii.eqb b1 "/"
      && is_digit m1 && is_digit m2 && Ascii.eqb b2 "/"
      && is_digit a1 && is_digit a2 && is_digit a3 && is_digit a4
      && match fim with
         | EmptyString => true
         | String c EmptyString => Ascii.eqb c "010"
         | _ => false
         end
  | _ => false
  end.

(** [_validar_data] *)
Definition _validar_data (v : pyval F) : result bool :=
  match v with
  | PStr s =>
      if negb (padrao_match s) then Ok false
      else
        try_except is_ValueError
          (partes ← mapM py_int (split_barra s);
           match partes with
           | [dia; mes; ano] => _ ← datetime ano mes dia; Ok true
           | _ => Raise (ValueError Conversao)
           end)
          false
  | _ => Raise TypeError
  end.

Definition apanha_valor_tipo (e : exn) : bool := is_ValueError e || is_TypeError e.

(** [_validar_previsto] *)
Definition _validar_previsto (cfg : config F) (v : pyval F) : result bool :=
  try_except apanha_valor_tipo
    (valor ← py_float v;
     Ok (f_leb (limite0 cfg) valor && f_leb valor (limite1 cfg)))
    false.

(** [_validar_colhido] *)
Definition _validar_colhido (cfg : config F) (v : pyval F) : result bool :=
  try_except apanha_valor_tipo
    (valor ← py_float v;
     Ok (f_leb (limite2 cfg) valor && f_leb valor (limite3 cfg)))
    false.

(** [_calcular_eficiencia], as a function of [self.previsto] and
    [self.colhido] returning the new [(self.eficiencia, self.perda)]. *)
Definition _calcular_eficiencia (previsto colhido : F) : result (F * F) :=
  if f_leb previsto (f_of_Z 0) then Ok (f_of_Z 0, f_of_Z 0)
  else
    q ← py_div colhido previsto;
    let eficiencia := f_mul q (f_of_Z 100) in
    let '(eficiencia, perda) :=
      if f_ltb (f_of_Z 100) eficiencia then (f_of_Z 100, f_of_Z 0)
      else (eficiencia, f_sub (f_of_Z 100) eficiencia) in
    Ok (f_round2 eficiencia, f_round2 perda).

(** [Colheita.__init__] *)
Definition __init__ (cfg : config F)
    (id_lote tipo data previsto colhido obs eficiencia perda : pyval F)
  : result Colheita :=
  if negb (_validar_id_lote id_lote) then Raise (ValueError IdLoteInvalido) else
  tipo_ok ← _validar_tipo cfg tipo;
  if negb tipo_ok then Raise (ValueError TipoInvalido) else
  data_ok ← _validar_data data;
  if negb data_ok then Raise (ValueError DataInvalida) else
  previsto_ok ← _validar_previsto cfg previsto;
  if negb previsto_ok then Raise (ValueError PrevistoInvalido) else
  colhido_ok ← _validar_colhido cfg colhido;
  if negb colhido_ok then Raise (ValueError ColhidoInvalido) else
  match id_lote, data with
  | PStr self_id_lote, PStr self_data =>
      self_tipo ← py_lower tipo;
      self_previsto ← py_float previsto;
      self_colhido ← py_float colhido;
      '(self_eficiencia, self_perda) ←
        (if is_None eficiencia || is_None perda
         then _calcular_eficiencia self_previsto self_colhido
         else e ← py_float eficiencia; p ← py_float perda; Ok (e, p));
      Ok {| colheita.id_lote := self_id_lote;
            colheita.tipo := self_tipo;
            colheita.data := self_data;
            colheita.previsto := self_previsto;
            colheita.colhido := self_colhido;
            colheita.obs := obs;
            colheita.eficiencia := self_eficiencia;
            colheita.perda := self_perda |}
  | _, _ => Raise TypeError
  end.

(** [para_dict] *)
Definition para_dict (self : Colheita) : gmap string (pyval F) :=
  <["id_lote" := PStr (id_lote self)]>
  (<["tipo" := PStr (tipo self)]>
  (<["data" := PStr (data self)]>
  (<["previsto" := PFloat (previsto self)]>
  (<["colhido" := PFloat (colhido self)]>
  (<["eficiencia" := PFloat (eficiencia self)]>
  (<["perda" := PFloat (perda self)]>
  (<["obs" := obs self]> ∅))))))).

(** [d[k]] *)
Definition getitem (d : gmap string (pyval F)) (k : string) : result (pyval F) :=
  match d !! k with
  | Some v => Ok v
  | None => Raise (KeyError k)
  end.

(** [d.get(k, v)] *)
Definition get (d : gmap string (pyval F)) (k : string) (v : pyval F) : pyval F :=
  default v (d !! k).

(** [Colheita.de_dict] *)
Definition de_dict (cfg : config F) (dicionario : pyval F) : result Colheita :=
  match dicionario with
  | PDict d =>
      id_lote ← getitem d "id_lote";
      tipo ← getitem d "tipo";
      data ← getitem d "data";
      previsto ← getitem d "previsto";
      colhido ← getitem d "colhido";
      __init__ cfg id_lote tipo data previsto colhido
        (get d "obs" (PStr "")) (get d "eficiencia" PNone) (get d "perda" PNone)
  | _ => Raise TypeError
  end.

End colheita.

Arguments Colheita F : clear implicits.

End colheita.

(** ** colheita_service.py *)

Module colheita_service.
Import colheita.

(** [self.colheitas], the only attribute of a [ColheitaService]. *)
Abbreviation ColheitaService F := (list (Colheita F)).

Section colheita_service.
Context {F : Type} `{!Aritmetica F}.

Variable float_of_str : string -> option F.

(** The builtin [str] on numbers and on the other objects that are not
    strings. *)
Variable py_str : pyval F -> string.

(** [f"{v}"]: a [str] is interpolated as it is. *)
Definition py_format (v : pyval F) : string :=
  match v with
  | PStr s => s
  | _ => py_str v
  end.

(** Numeric values: [0] is an [int], a mean is a [float]. *)
Definition num_val (v : pyval F) : F :=
  match v with
  | PInt z => f_of_Z z
  | PFloat x => x
  | PBool b => f_of_Z (if b then 1 else 0)
  | _ => f_of_Z 0
  end.

Definition py_sub (a b : pyval F) : pyval F :=
  match a, b with
  | PInt x, PInt y => PInt (x - y)
  | _, _ => PFloat (f_sub (num_val a) (num_val b))
  end.

Definition py_abs (a : pyval F) : pyval F :=
  match a with
  | PInt x => PInt (Z.abs x)
  | _ => PFloat (f_abs (num_val a))
  end.

(** [a > b] *)
Definition py_gt (a b : pyval F) : bool := f_ltb (num_val b) (num_val a).

(** [round(a, 2)]: an [int] is returned unchanged. *)
Definition py_round (a : pyval F) : pyval F :=
  match a with
  | PInt x => PInt x
  | _ => PFloat (f_round2 (num_val a))
  end.

(** [len(l)] *)
Definition len {A} (l : list A) : Z := Z.of_nat (length l).

(** Truth value of a list. *)
Definition nao_vazia {A} (l : list A) : bool :=
  match l with [] => false | _ => true end.

(** [__init__] *)
Definition __init__ : ColheitaService F := [].

(** [adicionar_colheita]: the new state and the returned flag. *)
Definition adicionar_colheita (self : ColheitaService F) (colheita : Colheita F)
  : ColheitaService F * bool :=
  match list_find (fun c => id_lote c = id_lote colheita) self with
  | Some (i, _) => (<[i := colheita]> self, true)
  | None => (self ++ [colheita], true)
  end.

(** [remover_colheita] *)
Definition remover_colheita (self : ColheitaService F) (id : string)
  : ColheitaService F * bool :=
  match list_find (fun c => id_lote c = id) self with
  | Some (i, _) => (delete i self, true)
  | None => (self, false)
  end.

(** [obter_colheita] *)
Definition obter_colheita (self : ColheitaService F) (id : string) : option (Colheita F) :=
  snd <$> list_find (fun c => id_lote c = id) self.

(** [listar_colheitas] *)
Definition listar_colheitas (self : ColheitaService F) : list (Colheita F) := self.

(** [sum(c.eficiencia for c in l)] *)
Definition soma_eficiencia (l : list (Colheita F)) : F :=
  f_sum (eficiencia <$> l).

(** [sum(c.eficiencia for c in l) / len(l) if l else 0] *)
Definition media_eficiencia (l : list (Colheita F)) : pyval F :=
  if nao_vazia l then PFloat (f_div (soma_eficiencia l) (f_of_Z (len l))) else PInt 0.

Definition estatisticas_tipo (total : Z) (eficiencia_media : pyval F) : pyval F :=
  PDict (<["total" := PInt total]> (<["eficiencia_media" := eficiencia_media]> ∅)).

(** [calcular_estatisticas] *)
Definition calcular_estatisticas (self : ColheitaService F) : gmap string (pyval F) :=
  if negb (nao_vazia self) then
    <["total" := PInt 0]>
    (<["manual" := estatisticas_tipo 0 (PInt 0)]>
    (<["mecanica" := estatisticas_tipo 0 (PInt 0)]>
    (<["diferenca" := PInt 0]>
    (<["recomendacoes" :=
        PList [PStr "Não há dados suficientes para análise."]]> ∅))))
  else
    let colheitas_manuais := filter (fun c => tipo c = "manual") self in
    let colheitas_mecanicas := filter (fun c => tipo c = "mecanica") self in
    let efic_manual := media_eficiencia colheitas_manuais in
    let efic_mecanica := media_eficiencia colheitas_mecanicas in
    let diferenca := py_abs (py_sub efic_manual efic_mecanica) in
    let recomendacoes :=
      if nao_vazia colheitas_manuais && nao_vazia colheitas_mecanicas then
        if py_gt efic_manual efic_mecanica then
          [ "A colheita manual está " +:+ f_fmt2 (num_val diferenca)
              +:+ "% mais eficiente que a mecânica.";
            "Verifique a calibração das máquinas colhedoras.";
            "Revise o treinamento dos operadores." ]
        else if py_gt efic_mecanica efic_manual then
          [ "A colheita mecânica está " +:+ f_fmt2 (num_val diferenca)
              +:+ "% mais eficiente que a manual.";
            "Analise os procedimentos da colheita manual.";
            "Considere treinar melhor a equipe de campo." ]
        else
          [ "Ambos os métodos de colheita apresentam eficiência similar." ]
      else if nao_vazia colheitas_manuais then
        [ "Existem apenas registros de colheita manual. Considere registrar colheitas mecânicas para comparação." ]
      else if nao_vazia colheitas_mecanicas then
        [ "Existem apenas registros de colheita mecânica. Considere registrar colheitas manuais para comparação." ]
      else [] in
    <["total" := PInt (len self)]>
    (<["manual" :=
        estatisticas_tipo (len colheitas_manuais) (py_round efic_manual)]>
    (<["mecanica" :=
        estatisticas_tipo (len colheitas_mecanicas) (py_round efic_mecanica)]>
    (<["diferenca" := py_round diferenca]>
    (<["recomendacoes" := PList (PStr <$> recomendacoes)]> ∅)))).

(** [salvar_json]: the value handed to [json.dump]. *)
Definition salvar_json (self : ColheitaService F) : pyval F :=
  PList ((fun c => PDict (para_dict c)) <$> self).

Fixpoint caracteres (s : string) : list string :=
  match s with
  | EmptyString => []
  | String a s' => String a EmptyString :: caracteres s'
  end.

(** Iteration [for d in dados]. *)
Definition py_iter (dados : pyval F) : result (list (pyval F)) :=
  match dados with
  | PList l => Ok l
  | PDict d => Ok (PStr <$> (map_to_list d).*1)
  | PStr s => Ok (PStr <$> caracteres s)
  | PNone | PBool _ | PInt _ | PFloat _ => Raise TypeError
  end.

(** The file [ARQUIVO_JSON] as [carregar_json] finds it. *)
Inductive arquivo_json : Type :=
| Inexistente
| Ilegivel (e : exn)
| Conteudo (dados : pyval F).

(** [carregar_json]: the new state and the returned flag.  Every exception
    raised inside the [try] is caught. *)
Definition carregar_json (cfg : config F) (self : ColheitaService F) (arquivo : arquivo_json)
  : ColheitaService F * bool :=
  match arquivo with
  | Inexistente => (self, false)
  | Ilegivel _ => (self, false)
  | Conteudo dados =>
      match (itens ← py_iter dados; mapM (de_dict float_of_str cfg) itens) with
      | Ok colheitas => (colheitas, true)
      | Raise _ => (self, false)
      end
  end.

(** The mean that [gerar_relatorio] computes for its own use:
    [sum(c.eficiencia for c in self.colheitas) / len(self.colheitas)
     if self.colheitas else 0]. *)
Definition media_geral (self : ColheitaService F) : pyval F := media_eficiencia self.

Fixpoint repete (n : nat) (s : string) : string :=
  match n with
  | O => EmptyString
  | S n' => s +:+ repete n' s
  end.

(** Truth value of an object, [if v:]. *)
Definition py_bool (v : pyval F) : bool :=
  match v with
  | PNone => false
  | PBool b => b
  | PInt z => negb (z =? 0)%Z
  | PFloat x => negb (f_eqb x (f_of_Z 0))
  | PStr s => negb (is_empty s)
  | PList l => nao_vazia l
  | PDict d => negb (bool_decide (d = ∅))
  end.

(** [v[k]] *)
Definition py_getitem (v : pyval F) (k : string) : result (pyval F) :=
  match v with
  | PDict d => getitem d k
  | _ => Raise TypeError
  end.

(** The block written for the [i]-th record. *)
Definition detalhe (i : Z) (c : Colheita F) : list string :=
  [ "Colheita #" +:+ py_format (PInt i) +:+ nl;
    "Lote: " +:+ id_lote c +:+ nl;
    "Tipo: " +:+ capitalize (tipo c) +:+ nl;
    "Data: " +:+ data c +:+ nl;
    "Previsto: " +:+ py_format (PFloat (previsto c)) +:+ " toneladas" +:+ nl;
    "Colhido: " +:+ py_format (PFloat (colhido c)) +:+ " toneladas" +:+ nl;
    "Eficiência: " +:+ py_format (PFloat (eficiencia c)) +:+ "%" +:+ nl;
    "Perda: " +:+ py_format (PFloat (perda c)) +:+ "%" +:+ nl ]
  ++ (if py_bool (obs c) then ["Observações: " +:+ py_format (obs c) +:+ nl] else [])
  ++ [ nl +:+ repete 50 "-" +:+ nl +:+ nl ].

Definition cabecalho (agora : string) : list string :=
  [ "==================================================" +:+ nl;
    "      RELATÓRIO DE EFICIÊNCIA DE COLHEITA DE CANA" +:+ nl;
    "      Gerado em: " +:+ agora +:+ nl;
    "==================================================" +:+ nl +:+ nl ].

(** The lines of the section headed [EFICIÊNCIA]. *)
Definition linhas_eficiencia (self : ColheitaService F) (estatisticas : gmap string (pyval F))
  : result (list string) :=
  manual ← getitem estatisticas "manual";
  media_manual ← py_getitem manual "eficiencia_media";
  mecanica ← getitem estatisticas "mecanica";
  media_mecanica ← py_getitem mecanica "eficiencia_media";
  diferenca ← getitem estatisticas "diferenca";
  Ok [ "EFICIÊNCIA" +:+ nl;
       "Eficiência média total: " +:+ f_fmt2 (num_val (media_geral self)) +:+ "%" +:+ nl;
       "Eficiência média (manual): " +:+ py_format media_manual +:+ "%" +:+ nl;
       "Eficiência média (mecânica): " +:+ py_format media_mecanica +:+ "%" +:+ nl;
       "Diferença de eficiência: " +:+ py_format diferenca +:+ "%" +:+ nl +:+ nl ].

Definition linhas_resumo (estatisticas : gmap string (pyval F)) : result (list string) :=
  total ← getitem estatisticas "total";
  manual ← getitem estatisticas "manual";
  total_manual ← py_getitem manual "total";
  mecanica ← getitem estatisticas "mecanica";
  total_mecanica ← py_getitem mecanica "total";
  Ok [ "RESUMO DAS COLHEITAS" +:+ nl;
       "Total de registros: " +:+ py_format total +:+ nl;
       "Colheitas manuais: " +:+ py_format total_manual +:+ nl;
       "Colheitas mecânicas: " +:+ py_format total_mecanica +:+ nl +:+ nl ].

Definition linhas_recomendacoes (estatisticas : gmap string (pyval F)) : result (list string) :=
  recs ← getitem estatisticas "recomendacoes";
  itens ← py_iter recs;
  Ok ([ "RECOMENDAÇÕES" +:+ nl ]
      ++ ((fun rec => "- " +:+ py_format rec +:+ nl) <$> itens)
      ++ [ nl ]).

(** [enumerate(l, 1)] *)
Definition enumerate1 {A} (l : list A) : list (Z * A) :=
  imap (fun i x => (Z.of_nat i + 1, x)%Z) l.

(** [gerar_relatorio]: what is written to the report file and the value
    returned.  [caminho_relatorio] is the result of [obter_caminho_relatorio()]
    and [agora] the formatted [datetime.now()].  An exception inside the [try]
    makes the method return [None]; failures of the file system are not
    modelled. *)
Definition gerar_relatorio (self : ColheitaService F) (caminho_relatorio agora : string)
  : list string * option string :=
  if negb (nao_vazia self) then
    (cabecalho agora ++ [ "Nenhuma colheita registrada para gerar relatório." +:+ nl ],
     Some caminho_relatorio)
  else
    let estatisticas := calcular_estatisticas self in
    match (resumo ← linhas_resumo estatisticas;
           efic ← linhas_eficiencia self estatisticas;
           recs ← linhas_recomendacoes estatisticas;
           Ok (cabecalho agora ++ resumo ++ efic ++ recs
               ++ [ "==================================================" +:+ nl;
                    "DETALHES DAS COLHEITAS" +:+ nl;
                    "==================================================" +:+ nl +:+ nl ]
               ++ concat ((fun '(i, c) => detalhe i c) <$> enumerate1 self)
               ++ [ nl +:+ nl +:+ "Fim do relatório." ])) with
    | Ok escrito => (escrito, Some caminho_relatorio)
    | Raise _ => ([], None)
    end.

(** [validar_entrada_numerica(mensagem, minimo, maximo, tipo)]: [tipo] is
    the conversion, [None] where it raises [ValueError]. *)
Fixpoint validar_entrada_numerica (tipo : string -> option F)
    (minimo maximo : option F) (linhas : list string) : console F :=
  match linhas with
  | [] => FimDaEntrada
  | l :: resto =>
      match tipo l with
      | None => validar_entrada_numerica tipo minimo maximo resto
      | Some valor =>
          if match minimo with Some m => f_ltb valor m | None => false end
          then validar_entrada_numerica tipo minimo maximo resto
          else if match maximo with Some m => f_ltb m valor | None => false end
          then validar_entrada_numerica tipo minimo maximo resto
          else Devolve valor resto
      end
  end.

(** [validar_entrada_data(mensagem, obrigatorio)]; [hoje] is
    [datetime.now().strftime("%d/%m/%Y")]. *)
Fixpoint validar_entrada_data (hoje : string) (obrigatorio : bool)
    (linhas : list string) : console string :=
  match linhas with
  | [] => FimDaEntrada
  | entrada :: resto =>
      if is_empty entrada then
        if obrigatorio then validar_entrada_data hoje obrigatorio resto
        else Devolve hoje resto
      else if negb (padrao_match entrada) then
        validar_entrada_data hoje obrigatorio resto
      else
        match (partes ← mapM py_int (split_barra entrada);
               match partes with
               | [dia; mes; ano] => _ ← datetime ano mes dia; Ok entrada
               | _ => Raise (ValueError Conversao)
               end) with
        | Ok data => Devolve data resto
        | Raise (ValueError _) => validar_entrada_data hoje obrigatorio resto
        | Raise e => Levanta e
        end
  end.

(** [validar_entrada_tipo_colheita(mensagem)] *)
Fixpoint validar_entrada_tipo_colheita (cfg : config F) (linhas : list string)
  : console string :=
  match linhas with
  | [] => FimDaEntrada
  | l :: resto =>
      let tipo := lower l in
      if bool_decide (tipo ∈ TIPOS_COLHEITA cfg) then Devolve tipo resto
      else validar_entrada_tipo_colheita cfg resto
  end.

End colheita_service.

Arguments arquivo_json F : clear implicits.
Arguments Inexistente {F}.
Arguments Ilegivel {F} e.
Arguments Conteudo {F} dados.

End colheita_service.

(** ** Sample data used by the examples below *)

Set Warnings "-inexact-float".

(** A configuration in the shape [colheita.py] expects: two harvest types,
    and the same range of tons for the predicted and the harvested amount. *)
Definition cfg_de {F} `{!Aritmetica F} (minimo maximo : Z) : config F :=
  {| TIPOS_COLHEITA := ["manual"; "mecanica"];
     LIMITES_TONELADAS :=
       (f_of_Z minimo, f_of_Z maximo, f_of_Z minimo, f_of_Z maximo) |}.

Definition cfg_exemplo : config float := cfg_de 0 10000.
Definition cfg_estreita : config float := cfg_de 0 100.

(** A [float] that rejects every string; the examples pass numbers. *)
Definition float_sem_str {F} : string -> option F := fun _ => None.

(** A [str] that prints every object as a question mark. *)
Definition str_opaco {F} : pyval F -> string := fun _ => "?".

(** [Colheita("L1", "Manual", "29/02/2024", 90, 60, "talhao norte")] *)
Definition colheita_L1 : colheita.Colheita float :=
  {| colheita.id_lote := "L1"; colheita.tipo := "manual";
     colheita.data := "29/02/2024";
     colheita.previsto := 90%float; colheita.colhido := 60%float;
     colheita.obs := PStr "talhao norte";
     colheita.eficiencia := 66.67%float; colheita.perda := 33.33%float |}.

(** [Colheita("L1", "manual", "01/03/2024", 500, 400)] *)
Definition colheita_L500 : colheita.Colheita float :=
  {| colheita.id_lote := "L1"; colheita.tipo := "manual";
     colheita.data := "01/03/2024";
     colheita.previsto := 500%float; colheita.colhido := 400%float;
     colheita.obs := PStr "";
     colheita.eficiencia := 80%float; colheita.perda := 20%float |}.


(** [Colheita(id, tipo, "01/03/2024", 100, colhido)]: 100 tons predicted, so
    the efficiency is the harvested amount. *)
Definition colheita_de (id tipo : string) (colhido : Z) : colheita.Colheita float :=
  {| colheita.id_lote := id; colheita.tipo := tipo;
     colheita.data := "01/03/2024";
     colheita.previsto := 100%float; colheita.colhido := float_of_Z colhido;
     colheita.obs := PStr "";
     colheita.eficiencia := float_of_Z colhido;
     colheita.perda := float_of_Z (100 - colhido) |}.

Definition colheita_A1 : colheita.Colheita float := colheita_de "A1" "manual" 90.
Definition colheita_A1_espacos : colheita.Colheita float := colheita_de " A1 " "manual" 85.
Definition colheita_A1_mecanica : colheita.Colheita float := colheita_de "A1" "mecanica" 60.
Definition colheita_A1_nova : colheita.Colheita float := colheita_de "A1" "manual" 95.
Definition colheita_B2 : colheita.Colheita float := colheita_de "B2" "mecanica" 70.

(** A JSON file in which two entries carry the id [A1]. *)
Definition dados_repetidos : pyval float :=
  PList [PDict (colheita.para_dict colheita_A1);
         PDict (colheita.para_dict colheita_A1_mecanica)].

(** A JSON file whose second entry has no [id_lote]. *)
Definition dados_malformados : pyval float :=
  PList [PDict (colheita.para_dict colheita_A1);
         PDict (delete "id_lote" (colheita.para_dict colheita_B2))].

(** The date rule in the words of the specification: exactly two digits, a
    slash, two digits, a slash and four digits, naming a day that exists. *)
Definition formato_DD_MM_AAAA (s : string) : bool :=
  match s with
  | String d1 (String d2 (String b1 (String m1 (String m2 (String b2
      (String a1 (String a2 (String a3 (String a4 EmptyString))))))))) =>
      is_digit d1 && is_digit d2 && Ascii.eqb b1 "/"
      && is_digit m1 && is_digit m2 && Ascii.eqb b2 "/"
      && is_digit a1 && is_digit a2 && is_digit a3 && is_digit a4
  | _ => false
  end.

Definition digito (a : ascii) : Z := Z.of_nat (nat_of_ascii a - 48).

Definition dia_existe (dia mes ano : Z) : bool :=
  ((1 <=? ano) && (ano <=? 9999) && (1 <=? mes) && (mes <=? 12)
   && (1 <=? dia) && (dia <=? days_in_month ano mes))%Z.

Definition data_DD_MM_AAAA (s : string) : bool :=
  match s with
  | String d1 (String d2 (String _ (String m1 (String m2 (String _
      (String a1 (String a2 (String a3 (String a4 _))))))))) =>
      formato_DD_MM_AAAA s
      && dia_existe (digito d1 * 10 + digito d2) (digito m1 * 10 + digito m2)
           (((digito a1 * 10 + digito a2) * 10 + digito a3) * 10 + digito a4)
  | _ => false
  end.

(** [v] is the number [q], or a dictionary or list holding it. *)
Definition e_numero {F} `{!Aritmetica F} (q : F) (v : pyval F) : bool :=
  match v with
  | PInt z => f_eqb (f_of_Z z) q
  | PFloat x => f_eqb x q
  | _ => false
  end.

Definition contem_numero {F} `{!Aritmetica F} (q : F) (v : pyval F) : bool :=
  match v with
  | PDict d => bool_decide (map_Exists (fun _ w => e_numero q w = true) d)
  | PList l => existsb (e_numero q) l
  | _ => e_numero q v
  end.

(** What the constructor guarantees of a record, under a configuration. *)
Definition bem_formada {F} `{!Aritmetica F} (cfg : config F)
    (r : colheita.Colheita F) : Prop :=
  is_empty (strip (colheita.id_lote r)) = false
  /\ colheita.tipo r ∈ TIPOS_COLHEITA cfg
  /\ lower (colheita.tipo r) = colheita.tipo r
  /\ colheita._validar_data (PStr (colheita.data r) : pyval F) = Ok true
  /\ f_leb (limite0 cfg) (colheita.previsto r) = true
  /\ f_leb (colheita.previsto r) (limite1 cfg) = true
  /\ f_leb (limite2 cfg) (colheita.colhido r) = true
  /\ f_leb (colheita.colhido r) (limite3 cfg) = true.

(** The values on which [py_float] is the builtin [float]: for an [int] too
    large for a float the builtin raises [OverflowError]. *)
Definition sem_estouro {F} (v : pyval F) : Prop :=
  match v with
  | PInt z => (Z.abs z < 2 ^ 1023)%Z
  | _ => True
  end.

(** The keys [de_dict] reads. *)
Definition chaves_lidas : list string :=
  ["id_lote"; "tipo"; "data"; "previsto"; "colhido"; "obs"; "eficiencia"; "perda"].

(** The dictionary of [colheita_L1] with an efficiency that is not the one of
    its amounts, and no loss. *)
Definition dicionario_sem_perda : gmap string (pyval float) :=
  <["eficiencia" := PFloat 12.5%float]> (delete "perda" (colheita.para_dict colheita_L1)).

(** The dictionary of [colheita_L1] without its date. *)
Definition dicionario_sem_data : gmap string (pyval float) :=
  delete "data" (colheita.para_dict colheita_L1).

(** A call that changes the store, and a sequence of such calls run from a
    given state. *)
Inductive operacao (F : Type) : Type :=
| Adicionar (c : colheita.Colheita F)
| Remover (id_lote : string).
Arguments Adicionar {F} c.
Arguments Remover {F} id_lote.

Definition executar {F} (self : colheita_service.ColheitaService F) (op : operacao F)
  : colheita_service.ColheitaService F :=
  match op with
  | Adicionar c => (colheita_service.adicionar_colheita self c).1
  | Remover k => (colheita_service.remover_colheita self k).1
  end.

(** The same call on a dictionary from id to record. *)
Definition aplicar {F} (m : gmap string (colheita.Colheita F)) (op : operacao F)
  : gmap string (colheita.Colheita F) :=
  match op with
  | Adicionar c => <[colheita.id_lote c := c]> m
  | Remover k => delete k m
  end.

(** What [main.py] records for 60 tons harvested out of 50 predicted. *)
Definition colheita_L9 : colheita.Colheita float :=
  {| colheita.id_lote := "L9"; colheita.tipo := "manual";
     colheita.data := "01/03/2024";
     colheita.previsto := 50%float; colheita.colhido := 60%float;
     colheita.obs := PStr "";
     colheita.eficiencia := 120%float; colheita.perda := (-20)%float |}.

(** The global list of [main.py] with the entries of two lots. *)
Definition lista_main : list (pyval float) :=
  [PDict (colheita.para_dict colheita_A1); PDict (colheita.para_dict colheita_B2)].

(** * Properties *)

(** ** Integers that fit a float *)

Lemma sem_estouro_cabe {F} (z : Z) :
  sem_estouro (PInt z : pyval F) -> int_cabe_em_float z = true.
Proof.
  cbn [sem_estouro]. intros Hz. unfold int_cabe_em_float.
  apply Z.ltb_lt. rewrite !Z.shiftl_1_l.
  assert (H1 : (2 ^ 970 < 2 ^ 1023)%Z) by (apply Z.pow_lt_mono_r; lia).
  assert (H2 : (2 ^ 1024 = 2 * 2 ^ 1023)%Z)
    by (change 1024%Z with (Z.succ 1023); apply Z.pow_succ_r; lia).
  revert Hz H1 H2. generalize (2 ^ 970)%Z (2 ^ 1023)%Z (2 ^ 1024)%Z. lia.
Qed.

(** ** The error monad *)

Section resultado.
Context {A B : Type}.

Lemma bind_Ok (m : result A) (f : A -> result B) (a : A) :
  m = Ok a -> (m ≫= f) = f a.
Proof. intros ->. reflexivity. Qed.

Lemma bind_Ok_inv (m : result A) (f : A -> result B) (b : B) :
  (m ≫= f) = Ok b -> exists a, m = Ok a /\ f a = Ok b.
Proof. destruct m as [a|e]; [eauto | discriminate]. Qed.

Lemma bind_Raise (m : result A) (f : A -> result B) (e : exn) :
  m = Raise e -> (m ≫= f) = Raise e.
Proof. intros ->. reflexivity. Qed.

End resultado.

Tactic Notation "inv_bind" hyp(H) "as" ident(x) ident(Hx) :=
  apply bind_Ok_inv in H as (x & Hx & H).

Ltac inv_guard H :=
  match type of H with
  | (if negb ?b then _ else _) = Ok _ =>
      let E := fresh "E" in
      destruct b eqn:E; [cbn [negb] in H | discriminate H]
  end.

(** ** Exact arithmetic: rounding to two decimals *)

Section numeros.


Lemma Qleb_false (x y : Q) : Qleb x y = false <-> y < x.
Proof.
  unfold Qleb. split; intros H.
  - apply Qnot_le_lt. intros Hle. apply Qle_bool_iff in Hle. congruence.
  - destruct (Qle_bool x y) eqn:E; [|reflexivity].
    apply Qle_bool_iff in E. exfalso. apply (Qlt_not_le _ _ H E).
Qed.

Lemma Qltb_true (x y : Q) : Qltb x y = true <-> x < y.
Proof.
  unfold Qltb. rewrite negb_true_iff. apply (Qleb_false y x).
Qed.


#[global] Instance round_half_even_proper : Proper (Qeq ==> eq) round_half_even.
Proof.
  intros x y Hxy. unfold round_half_even.
  rewrite (Qfloor_comp _ _ Hxy).
  assert (Hc : (x - inject_Z (Qfloor y) ?= 1 # 2) = (y - inject_Z (Qfloor y) ?= 1 # 2)).
  { apply Qcompare_comp; [rewrite Hxy|]; reflexivity. }
  rewrite Hc. reflexivity.
Qed.








Lemma py_round2_value (x : Q) :
  py_round2 x == inject_Z (round_half_even (x * 100)) / 100.
Proof.
  unfold py_round2. rewrite Qred_correct.
  unfold Qeq, Qdiv, Qmult, Qinv, inject_Z. simpl. lia.
Qed.

#[global] Instance py_round2_proper : Proper (Qeq ==> Qeq) py_round2.
Proof.
  intros x y H. rewrite !py_round2_value.
  assert (E : x * 100 == y * 100) by (rewrite H; reflexivity).
  rewrite (round_half_even_proper _ _ E). reflexivity.
Qed.



End numeros.

(** ** Binary64: the rounding of the interpreter on known values *)

(** [round(2.675, 2)] is 2.67 because the double nearest to 2.675 lies below
    it; 0.125 and 0.375 are exact ties and go to the even neighbour; a small
    negative number rounds to minus zero; and the conversions agree with the
    division of the machine. *)
Lemma round2_f64_exemplos :
  round2_f64 2.675 = 2.67%float
  /\ round2_f64 0.125 = 0.12%float
  /\ round2_f64 0.375 = 0.38%float
  /\ round2_f64 (-0.001) = neg_zero
  /\ round2_f64 66.66666666666667 = 66.67%float
  /\ float_of_Q (1 # 3) = (1 / 3)%float
  /\ float_of_Q (6667 # 100) = (6667 / 100)%float
  /\ float_of_Z 10000 = 10000%float
  /\ fmt2_f64 2.675 = "2.67"
  /\ fmt2_f64 neg_zero = "-0.00"
  /\ fmt2_f64 (0.1 + 0.2) = "0.30".
Proof. split_and!; vm_compute; reflexivity. Qed.

(** ** The two efficiency calculations *)

Section calculo_eficiencia.
Context {F : Type} `{!Aritmetica F}.

(** C9: for a forecast that is zero or negative both calculations return
    (0.0, 0.0) without raising, whatever was harvested.  This holds for every
    arithmetic, binary64 included: the test comes before the division. *)
Theorem eficiencia_previsto_nao_positivo (previsto colhido : F) :
  f_leb previsto (f_of_Z 0) = true ->
  colheita._calcular_eficiencia previsto colhido = Ok (f_of_Z 0, f_of_Z 0)
  /\ main.calcular_eficiencia previsto colhido = Ok (f_of_Z 0, f_of_Z 0).
Proof.
  intros Hp.
  unfold colheita._calcular_eficiencia, main.calcular_eficiencia.
  rewrite Hp. split; reflexivity.
Qed.

(** Neither calculation can raise, in an arithmetic where whatever equals
    zero is at most zero: the division is guarded. *)
Lemma eficiencia_total (previsto colhido : F) :
  (forall x : F, f_eqb x (f_of_Z 0) = true -> f_leb x (f_of_Z 0) = true) ->
  (exists r, colheita._calcular_eficiencia previsto colhido = Ok r)
  /\ (exists r, main.calcular_eficiencia previsto colhido = Ok r).
Proof.
  intros Hzero.
  unfold colheita._calcular_eficiencia, main.calcular_eficiencia, py_div.
  destruct (f_leb previsto (f_of_Z 0)) eqn:E; [eauto|].
  destruct (f_eqb previsto (f_of_Z 0)) eqn:E0.
  - rewrite (Hzero _ E0) in E. discriminate.
  - cbn [mbind result_bind]. split; [|eauto].
    destruct (f_ltb _ _); eauto.
Qed.

End calculo_eficiencia.

Lemma eficiencia_previsto_nao_positivo_witness :
  colheita._calcular_eficiencia 0%float (-10)%float = Ok (0%float, 0%float)
  /\ main.calcular_eficiencia 0%float (-10)%float = Ok (0%float, 0%float).
Proof.
  exact (eficiencia_previsto_nao_positivo 0%float (-10)%float eq_refl).
Defined.

(** C1 (as the code has it): with 60 tons harvested out of 50 predicted, in
    binary64, [calcular_eficiencia] of [main.py] reports 120% efficiency and a
    loss of -20%, where [Colheita._calcular_eficiencia] reports (100, 0). *)
Theorem main_eficiencia_sem_limite :
  main.calcular_eficiencia 50%float 60%float = Ok (120%float, (-20)%float)
  /\ colheita._calcular_eficiencia 50%float 60%float = Ok (100%float, 0%float).
Proof. split; vm_compute; reflexivity. Qed.

(** Scenarios A, B and C of the specification, on the constructor's
    calculation, in binary64. *)
Lemma cenarios_A_B_C :
  colheita._calcular_eficiencia 100%float 80%float = Ok (80%float, 20%float)
  /\ colheita._calcular_eficiencia 50%float 60%float = Ok (100%float, 0%float)
  /\ colheita._calcular_eficiencia 0%float 10%float = Ok (0%float, 0%float).
Proof. split_and!; vm_compute; reflexivity. Qed.

(** *** In exact arithmetic *)

Section calculo_exato.

Lemma py_div_nonzero (x y : Q) : ~ y == 0 -> py_div x y = Ok (x / y).
Proof.
  intros Hy. unfold py_div.
  cbn [f_eqb f_of_Z f_div aritmetica_exata]. change (inject_Z 0) with 0.
  destruct (Qeq_bool y 0) eqn:E; [|reflexivity].
  apply Qeq_bool_iff in E. contradiction.
Qed.

Lemma percentual_acima_de_100 (previsto colhido : Q) :
  0 < previsto -> previsto < colhido -> 100 < colhido / previsto * 100.
Proof.
  intros Hp Hc.
  assert (1 < colhido / previsto).
  { apply Qlt_shift_div_l; [exact Hp | lra]. }
  lra.
Qed.

(** [Colheita._calcular_eficiencia] caps a harvest above the forecast. *)
Lemma colheita_eficiencia_limitada (previsto colhido : Q) :
  0 < previsto -> previsto < colhido ->
  colheita._calcular_eficiencia previsto colhido = Ok (100, 0).
Proof.
  intros Hp Hc. unfold colheita._calcular_eficiencia.
  cbn [f_leb f_ltb f_of_Z f_mul f_sub f_round2 aritmetica_exata].
  change (inject_Z 0) with 0. change (inject_Z 100) with 100.
  rewrite (proj2 (Qleb_false previsto 0) Hp).
  rewrite py_div_nonzero by lra. cbn [mbind result_bind].
  rewrite (proj2 (Qltb_true 100 _) (percentual_acima_de_100 _ _ Hp Hc)).
  reflexivity.
Qed.

(** Without the cap, [calcular_eficiencia] of [main.py] rounds a percentage
    above 100 and its negative complement. *)
Lemma main_eficiencia_acima_de_100 (previsto colhido : Q) :
  0 < previsto -> previsto < colhido ->
  exists x, 100 < x
    /\ main.calcular_eficiencia previsto colhido
       = Ok (py_round2 x, py_round2 (100 - x)).
Proof.
  intros Hp Hc. exists (colhido / previsto * 100).
  split; [by apply percentual_acima_de_100|].
  unfold main.calcular_eficiencia.
  cbn [f_leb f_of_Z f_mul f_sub f_round2 aritmetica_exata].
  change (inject_Z 0) with 0. change (inject_Z 100) with 100.
  rewrite (proj2 (Qleb_false previsto 0) Hp).
  rewrite py_div_nonzero by lra. reflexivity.
Qed.


End calculo_exato.

(** ** The constructor *)

Section construtor.
Import colheita.
Context {F : Type} `{!Aritmetica F}.

Variable float_of_str : string -> option F.
Local Abbreviation py_float := (colheita.py_float float_of_str).
Local Abbreviation __init__ := (colheita.__init__ float_of_str).
Local Abbreviation de_dict := (colheita.de_dict float_of_str).

Lemma lower_ascii_idem (a : ascii) : lower_ascii (lower_ascii a) = lower_ascii a.
Proof.
  destruct a as [[] [] [] [] [] [] [] []]; reflexivity.
Qed.

Lemma lower_idem (s : string) : lower (lower s) = lower s.
Proof.
  induction s as [|a s IH]; [reflexivity|].
  unfold lower in *. simpl. rewrite lower_ascii_idem, IH. reflexivity.
Qed.

Lemma validar_faixa_inv (lo hi : F) (v : pyval F) :
  try_except apanha_valor_tipo
    (valor ← py_float v; Ok (f_leb lo valor && f_leb valor hi)) false = Ok true ->
  exists x, py_float v = Ok x /\ f_leb lo x = true /\ f_leb x hi = true.
Proof.
  destruct (py_float v) as [x|e] eqn:E; simpl.
  - intros H. injection H as H. apply andb_true_iff in H as [H1 H2]. eauto.
  - destruct (apanha_valor_tipo e); discriminate.
Qed.

Lemma validar_faixa_intro (lo hi x : F) (v : pyval F) :
  py_float v = Ok x -> f_leb lo x = true -> f_leb x hi = true ->
  try_except apanha_valor_tipo
    (valor ← py_float v; Ok (f_leb lo valor && f_leb valor hi)) false = Ok true.
Proof. intros -> H1 H2. simpl. rewrite H1, H2. reflexivity. Qed.

(** What a successful construction says about the arguments and about the
    attributes of the new object. *)
Lemma init_Ok_inv (cfg : config F)
    (a_id a_tipo a_data a_prev a_colh a_obs a_efic a_perda : pyval F)
    (r : Colheita F) :
  __init__ cfg a_id a_tipo a_data a_prev a_colh a_obs a_efic a_perda = Ok r ->
  exists (s t d : string) (p h : F),
    a_id = PStr s /\ is_empty (strip s) = false
    /\ a_tipo = PStr t /\ lower t ∈ TIPOS_COLHEITA cfg
    /\ a_data = PStr d /\ _validar_data (PStr d : pyval F) = Ok true
    /\ py_float a_prev = Ok p
    /\ f_leb (limite0 cfg) p = true /\ f_leb p (limite1 cfg) = true
    /\ py_float a_colh = Ok h
    /\ f_leb (limite2 cfg) h = true /\ f_leb h (limite3 cfg) = true
    /\ (if is_None a_efic || is_None a_perda
        then _calcular_eficiencia p h
        else e ← py_float a_efic; q ← py_float a_perda; Ok (e, q))
       = Ok (eficiencia r, perda r)
    /\ id_lote r = s /\ tipo r = lower t /\ data r = d
    /\ previsto r = p /\ colhido r = h /\ obs r = a_obs.
Proof.
  intros H. unfold colheita.__init__ in H.
  inv_guard H.
  inv_bind H as tipo_ok Htipo. inv_guard H.
  inv_bind H as data_ok Hdata. inv_guard H.
  inv_bind H as prev_ok Hprev. inv_guard H.
  inv_bind H as colh_ok Hcolh. inv_guard H.
  destruct a_id as [| | | |s| |]; try discriminate E.
  destruct a_data as [| | | |d| |]; try discriminate Hdata.
  destruct a_tipo as [| | | |t| |]; try discriminate Htipo.
  apply validar_faixa_inv in Hprev as (p & Hp & Hp0 & Hp1).
  apply validar_faixa_inv in Hcolh as (h & Hh & Hh0 & Hh1).
  simpl in Htipo. injection Htipo as Htipo. apply bool_decide_eq_true in Htipo.
  inv_bind H as self_tipo Hst. simpl in Hst. injection Hst as <-.
  rewrite Hp, Hh in H. cbn [mbind result_bind] in H.
  inv_bind H as ep Hep. destruct ep as [e q]. injection H as <-.
  exists s, t, d, p, h. simpl.
  apply negb_true_iff in E.
  repeat split; try assumption; try reflexivity.
Qed.

(** The stored efficiency and loss are the result of the calculation on the
    stored tons when one of them was not supplied, and the supplied values,
    converted by [float], otherwise. *)
Lemma eficiencia_guardada (cfg : config F)
    (a_id a_tipo a_data a_prev a_colh a_obs a_efic a_perda : pyval F)
    (r : Colheita F) :
  __init__ cfg a_id a_tipo a_data a_prev a_colh a_obs a_efic a_perda = Ok r ->
  if is_None a_efic || is_None a_perda
  then _calcular_eficiencia (previsto r) (colhido r) = Ok (eficiencia r, perda r)
  else py_float a_efic = Ok (eficiencia r) /\ py_float a_perda = Ok (perda r).
Proof.
  intros Hr.
  apply init_Ok_inv in Hr
    as (s & t & d & p & h & _ & _ & _ & _ & _ & _ & _ & _ & _ & _
        & _ & _ & Hcalc & _ & _ & _ & <- & <- & _).
  destruct (is_None a_efic || is_None a_perda); [exact Hcalc|].
  inv_bind Hcalc as e He. inv_bind Hcalc as q Hq.
  injection Hcalc as <- <-. by split.
Qed.

Lemma init_de_valores (cfg : config F) (s t d : string) (p h e q : F) (o : pyval F) :
  is_empty (strip s) = false ->
  lower t ∈ TIPOS_COLHEITA cfg ->
  _validar_data (PStr d : pyval F) = Ok true ->
  f_leb (limite0 cfg) p = true -> f_leb p (limite1 cfg) = true ->
  f_leb (limite2 cfg) h = true -> f_leb h (limite3 cfg) = true ->
  __init__ cfg (PStr s) (PStr t) (PStr d) (PFloat p) (PFloat h) o (PFloat e) (PFloat q)
  = Ok {| id_lote := s; tipo := lower t; data := d; previsto := p;
          colhido := h; obs := o; eficiencia := e; perda := q |}.
Proof.
  intros Hs Ht Hd Hp0 Hp1 Hh0 Hh1. unfold colheita.__init__.
  unfold _validar_id_lote. rewrite Hs. cbn [negb].
  unfold _validar_tipo. cbn [py_lower mbind result_bind].
  rewrite (bool_decide_eq_true_2 _ Ht). cbn [negb].
  rewrite Hd. cbn [negb mbind result_bind].
  unfold _validar_previsto, _validar_colhido.
  rewrite (validar_faixa_intro (limite0 cfg) (limite1 cfg) p (PFloat p))
    by (assumption || reflexivity).
  cbn [negb mbind result_bind].
  rewrite (validar_faixa_intro (limite2 cfg) (limite3 cfg) h (PFloat h))
    by (assumption || reflexivity).
  reflexivity.
Qed.

Lemma de_dict_para_dict_args (cfg : config F) (r : Colheita F) :
  de_dict cfg (PDict (para_dict r))
  = __init__ cfg (PStr (id_lote r)) (PStr (tipo r)) (PStr (data r))
      (PFloat (previsto r)) (PFloat (colhido r)) (obs r)
      (PFloat (eficiencia r)) (PFloat (perda r)).
Proof. reflexivity. Qed.

(** C2 (amended): reading back the dictionary of a constructed record gives
    the same record, field by field, under every configuration that has the
    same harvest types and whose limits admit the record's predicted and
    harvested tons; in particular under the configuration it was built
    with.  This holds for every arithmetic, binary64 included. *)
Theorem reconstrucao_de_dict (cfg cfg' : config F)
    (a_id a_tipo a_data a_prev a_colh a_obs a_efic a_perda : pyval F)
    (r : Colheita F) :
  __init__ cfg a_id a_tipo a_data a_prev a_colh a_obs a_efic a_perda = Ok r ->
  TIPOS_COLHEITA cfg' = TIPOS_COLHEITA cfg ->
  f_leb (limite0 cfg') (previsto r) = true ->
  f_leb (previsto r) (limite1 cfg') = true ->
  f_leb (limite2 cfg') (colhido r) = true ->
  f_leb (colhido r) (limite3 cfg') = true ->
  de_dict cfg' (PDict (para_dict r)) = Ok r
  /\ de_dict cfg (PDict (para_dict r)) = Ok r.
Proof.
  intros Hr Htipos Hp0 Hp1 Hh0 Hh1.
  apply init_Ok_inv in Hr
    as (s & t & d & p & h & _ & Hs & _ & Ht & _ & Hd & _ & Hq0 & Hq1 & _
        & Hk0 & Hk1 & _ & Eid & Etipo & Edata & Eprev & Ecolh & _).
  rewrite !de_dict_para_dict_args.
  assert (Hlow : lower (tipo r) = tipo r) by (rewrite Etipo; apply lower_idem).
  assert (Hrec : {| id_lote := id_lote r; tipo := lower (tipo r); data := data r;
                    previsto := previsto r; colhido := colhido r; obs := obs r;
                    eficiencia := eficiencia r; perda := perda r |} = r).
  { rewrite Hlow. destruct r; reflexivity. }
  split.
  - rewrite init_de_valores; try assumption.
    + rewrite Hrec. reflexivity.
    + rewrite Eid. exact Hs.
    + rewrite Htipos, Hlow, Etipo. exact Ht.
    + rewrite Edata. exact Hd.
  - rewrite init_de_valores.
    + rewrite Hrec. reflexivity.
    + rewrite Eid. exact Hs.
    + rewrite Hlow, Etipo. exact Ht.
    + rewrite Edata. exact Hd.
    + rewrite Eprev. exact Hq0.
    + rewrite Eprev. exact Hq1.
    + rewrite Ecolh. exact Hk0.
    + rewrite Ecolh. exact Hk1.
Qed.

End construtor.

(** C2 (counterexample): a record built while the limits were 0..10000 is
    refused when its own dictionary is read back under limits 0..100, the
    stored efficiency and loss being passed along. *)
Lemma reconstrucao_recusada_por_limites :
  colheita.__init__ float_sem_str cfg_exemplo
    (PStr "L1") (PStr "manual") (PStr "01/03/2024") (PInt 500) (PInt 400)
    (PStr "") PNone PNone = Ok colheita_L500
  /\ colheita.de_dict float_sem_str cfg_exemplo
       (PDict (colheita.para_dict colheita_L500)) = Ok colheita_L500
  /\ colheita.de_dict float_sem_str cfg_estreita
       (PDict (colheita.para_dict colheita_L500))
     = Raise (ValueError PrevistoInvalido).
Proof. split_and!; vm_compute; reflexivity. Qed.

Lemma reconstrucao_de_dict_witness :
  colheita.de_dict float_sem_str cfg_exemplo (PDict (colheita.para_dict colheita_L1))
  = Ok colheita_L1
  /\ colheita.de_dict float_sem_str cfg_estreita (PDict (colheita.para_dict colheita_L1))
     = Ok colheita_L1.
Proof.
  apply (reconstrucao_de_dict float_sem_str cfg_estreita cfg_exemplo
           (PStr "L1") (PStr "Manual") (PStr "29/02/2024") (PInt 90) (PInt 60)
           (PStr "talhao norte") PNone PNone colheita_L1).
  - vm_compute. reflexivity.
  - reflexivity.
  - vm_compute. reflexivity.
  - vm_compute. reflexivity.
  - vm_compute. reflexivity.
  - vm_compute. reflexivity.
Defined.

(** ** Range of the stored efficiency and loss *)


Section faixa_exata.
Import colheita.

Variable float_of_str : string -> option Q.


End faixa_exata.


(** ** The store: [adicionar_colheita] and [obter_colheita] *)

Section busca.
Context {A : Type} (P : A -> Prop) `{!forall x, Decision (P x)}.

Lemma list_find_substituido (l : list A) (i : nat) (x c : A) :
  list_find P l = Some (i, x) -> P c ->
  list_find P (<[i := c]> l) = Some (i, c).
Proof.
  intros Hf Hc. apply list_find_Some in Hf as (Hi & _ & Hmin).
  apply list_find_insert_Some. right; left.
  repeat split; try done. by eapply lookup_lt_Some.
Qed.

Lemma list_find_acrescentado (l : list A) (c : A) :
  list_find P l = None -> P c ->
  list_find P (l ++ [c]) = Some (length l, c).
Proof.
  intros Hf Hc. rewrite list_find_app_r by done. simpl.
  rewrite decide_True by done. reflexivity.
Qed.

Lemma list_find_outro_substituido (l : list A) (i : nat) (x c : A) :
  l !! i = Some x -> ~ P x -> ~ P c ->
  list_find P (<[i := c]> l) = list_find P l.
Proof.
  revert i. induction l as [|y l IH]; intros i Hi Hx Hc; [done|].
  destruct i as [|i]; simpl in *.
  - injection Hi as ->. by rewrite !decide_False.
  - destruct (decide (P y)); [reflexivity|]. by rewrite (IH i).
Qed.

Lemma list_find_outro_acrescentado (l : list A) (c : A) :
  ~ P c -> snd <$> list_find P (l ++ [c]) = snd <$> list_find P l.
Proof.
  intros Hc. destruct (list_find P l) as [[i x]|] eqn:Hf.
  - by rewrite (list_find_app_l _ _ _ _ _ Hf).
  - rewrite list_find_app_r by done. simpl. by rewrite decide_False.
Qed.

End busca.

Section armazem.
Import colheita colheita_service.
Context {F : Type}.

Implicit Types (self : ColheitaService F) (c : Colheita F) (k : string).

Lemma adicionar_colheita_existente self c i x :
  list_find (fun y => id_lote y = id_lote c) self = Some (i, x) ->
  adicionar_colheita self c = (<[i := c]> self, true).
Proof. unfold adicionar_colheita. intros ->. reflexivity. Qed.

Lemma adicionar_colheita_novo self c :
  list_find (fun y => id_lote y = id_lote c) self = None ->
  adicionar_colheita self c = (self ++ [c], true).
Proof. unfold adicionar_colheita. intros ->. reflexivity. Qed.

(** After [adicionar_colheita] the record is found where the method put it. *)
Lemma adicionar_colheita_find self c :
  exists i, list_find (fun y => id_lote y = id_lote c) (adicionar_colheita self c).1
            = Some (i, c).
Proof.
  destruct (list_find (fun y => id_lote y = id_lote c) self) as [[i x]|] eqn:Hf.
  - rewrite (adicionar_colheita_existente _ _ _ _ Hf). exists i.
    by apply (list_find_substituido _ _ _ x).
  - rewrite (adicionar_colheita_novo _ _ Hf). exists (length self).
    by apply list_find_acrescentado.
Qed.

Lemma adicionar_colheita_idempotente self c :
  adicionar_colheita (adicionar_colheita self c).1 c = adicionar_colheita self c.
Proof.
  destruct (list_find (fun y => id_lote y = id_lote c) self) as [[i x]|] eqn:Hf.
  - rewrite (adicionar_colheita_existente _ _ _ _ Hf). cbn [fst].
    rewrite (adicionar_colheita_existente _ _ i c).
    + by rewrite list_insert_insert_eq.
    + by apply (list_find_substituido _ _ _ x).
  - rewrite (adicionar_colheita_novo _ _ Hf). cbn [fst].
    rewrite (adicionar_colheita_existente _ _ (length self) c).
    + replace (length self) with (length self + 0)%nat at 1 by lia.
      by rewrite insert_app_r.
    + by apply list_find_acrescentado.
Qed.

Lemma obter_adicionar_eq self c :
  obter_colheita (adicionar_colheita self c).1 (id_lote c) = Some c.
Proof.
  unfold obter_colheita.
  destruct (adicionar_colheita_find self c) as [i ->]. reflexivity.
Qed.

Lemma obter_adicionar_ne self c k :
  id_lote c <> k ->
  obter_colheita (adicionar_colheita self c).1 k = obter_colheita self k.
Proof.
  intros Hne. unfold obter_colheita.
  destruct (list_find (fun y => id_lote y = id_lote c) self) as [[i x]|] eqn:Hf.
  - rewrite (adicionar_colheita_existente _ _ _ _ Hf). cbn [fst].
    apply list_find_Some in Hf as (Hi & Hx & _).
    rewrite (list_find_outro_substituido _ _ _ x); congruence.
  - rewrite (adicionar_colheita_novo _ _ Hf). cbn [fst].
    by apply list_find_outro_acrescentado.
Qed.

Lemma obter_ausente self k :
  Forall (fun c => id_lote c <> k) self -> obter_colheita self k = None.
Proof.
  intros H. unfold obter_colheita.
  by rewrite (proj2 (list_find_None (fun c => id_lote c = k) self) H).
Qed.

Lemma ids_apos_adicionar self c :
  NoDup (id_lote <$> self) -> NoDup (id_lote <$> (adicionar_colheita self c).1).
Proof.
  intros Hnd.
  destruct (list_find (fun y => id_lote y = id_lote c) self) as [[i x]|] eqn:Hf.
  - rewrite (adicionar_colheita_existente _ _ _ _ Hf). cbn [fst].
    apply list_find_Some in Hf as (Hi & Hx & _).
    rewrite list_fmap_insert, list_insert_id; [done|].
    by rewrite list_lookup_fmap, Hi, <- Hx.
  - rewrite (adicionar_colheita_novo _ _ Hf). cbn [fst].
    rewrite fmap_app. apply NoDup_app. split_and!; [done| |apply NoDup_singleton].
    intros y Hy Hin. apply list_elem_of_singleton in Hin as ->.
    apply list_elem_of_fmap in Hy as (z & Hz & Hzin).
    apply list_find_None in Hf. rewrite Forall_forall in Hf.
    by apply (Hf z).
Qed.

Lemma filter_id_ausente self k :
  k ∉ id_lote <$> self -> filter (fun y => id_lote y = k) self = [].
Proof.
  induction self as [|y l IH]; intros Hk; [done|].
  rewrite fmap_cons in Hk. apply not_elem_of_cons in Hk as [Hy Hl].
  rewrite filter_cons_False by congruence. by apply IH.
Qed.

(** With pairwise distinct ids, the records carrying the id of a stored
    record are that record alone. *)
Lemma filter_id_unico self c :
  NoDup (id_lote <$> self) -> c ∈ self ->
  filter (fun y => id_lote y = id_lote c) self = [c].
Proof.
  induction self as [|y l IH]; intros Hnd Hin; [by apply elem_of_nil in Hin|].
  rewrite fmap_cons in Hnd. apply NoDup_cons in Hnd as [Hy Hnd].
  apply elem_of_cons in Hin as [-> | Hin].
  - rewrite filter_cons_True by done. by rewrite filter_id_ausente.
  - rewrite filter_cons_False; [by apply IH|].
    intros Hyc. apply Hy. rewrite Hyc. by apply list_elem_of_fmap_2.
Qed.

Lemma adicionar_colheita_elem self c : c ∈ (adicionar_colheita self c).1.
Proof.
  destruct (adicionar_colheita_find self c) as [i Hf].
  apply list_find_Some in Hf as (Hi & _). by eapply list_elem_of_lookup_2.
Qed.

End armazem.

(** ** Loading the store *)

Section carga.
Import colheita colheita_service.
Context {F : Type} `{!Aritmetica F}.
Variable float_of_str : string -> option F.

Lemma mapM_Raise {A B} (f : A -> result B) (l : list A) (x : A) (e : exn) :
  x ∈ l -> f x = Raise e -> exists e', mapM f l = Raise e'.
Proof.
  induction l as [|y l IH]; intros Hin Hx; [by apply elem_of_nil in Hin|].
  simpl. destruct (f y) as [b|e1] eqn:Hy; [|by eexists].
  apply elem_of_cons in Hin as [-> | Hin]; [congruence|].
  destruct (IH Hin Hx) as [e' ->]. by eexists.
Qed.

Lemma mapM_Ok {A B} (f : A -> result B) (l : list A) (k : list B) :
  mapM f l = Ok k -> Forall2 (fun x y => f x = Ok y) l k.
Proof.
  revert k. induction l as [|x l IH]; intros k H; simpl in H.
  - injection H as <-. constructor.
  - destruct (f x) as [y|] eqn:Hx; [|discriminate]. cbn [mbind result_bind] in H.
    destruct (mapM f l) as [ys|] eqn:Hl; [|discriminate]. injection H as <-.
    constructor; [exact Hx | by apply IH].
Qed.

(** C4: [carregar_json] commits all the records or none.  If one entry of the
    file does not deserialize, the method returns [False] and the state is the
    one before the call; whenever it returns [False] the state is unchanged;
    and when it returns [True] the new state is the deserialization of every
    entry, in order. *)
Theorem carregar_json_tudo_ou_nada (cfg : config F) (self : ColheitaService F)
    (arquivo : arquivo_json F) :
  (forall dados itens d e,
      arquivo = Conteudo dados -> py_iter dados = Ok itens ->
      d ∈ itens -> de_dict float_of_str cfg d = Raise e ->
      carregar_json float_of_str cfg self arquivo = (self, false))
  /\ (forall s', carregar_json float_of_str cfg self arquivo = (s', false) -> s' = self)
  /\ (forall s', carregar_json float_of_str cfg self arquivo = (s', true) ->
        exists dados itens,
          arquivo = Conteudo dados /\ py_iter dados = Ok itens
          /\ Forall2 (fun d c => de_dict float_of_str cfg d = Ok c) itens s').
Proof.
  split_and!.
  - intros dados itens d e -> Hit Hin Hd. unfold carregar_json.
    rewrite Hit. cbn [mbind result_bind].
    destruct (mapM_Raise _ _ _ _ Hin Hd) as [e' ->]. reflexivity.
  - intros s'. unfold carregar_json. destruct arquivo as [| |dados].
    + by intros [= <-].
    + by intros [= <-].
    + destruct (py_iter dados ≫= _); [discriminate | by intros [= <-]].
  - intros s'. unfold carregar_json. destruct arquivo as [| |dados]; try discriminate.
    destruct (py_iter dados) as [itens|] eqn:Hit; [|discriminate].
    cbn [mbind result_bind].
    destruct (mapM _ itens) as [cs|] eqn:Hm; [|discriminate].
    intros [= <-]. exists dados, itens. split_and!; [done..|]. by apply mapM_Ok.
Qed.

End carga.

(** What [salvar_json] wrote is loaded back whole. *)
Lemma carregar_json_de_salvar_json :
  colheita_service.carregar_json float_sem_str cfg_exemplo [colheita_L1]
    (colheita_service.Conteudo
       (colheita_service.salvar_json [colheita_A1; colheita_B2]))
  = ([colheita_A1; colheita_B2], true).
Proof. vm_compute. reflexivity. Qed.

Lemma carregar_json_tudo_ou_nada_witness :
  colheita_service.carregar_json float_sem_str cfg_exemplo [colheita_B2]
    (colheita_service.Conteudo dados_malformados) = ([colheita_B2], false).
Proof.
  apply (proj1 (carregar_json_tudo_ou_nada float_sem_str cfg_exemplo [colheita_B2]
                  (colheita_service.Conteudo dados_malformados))
           dados_malformados
           [PDict (colheita.para_dict colheita_A1);
            PDict (delete "id_lote" (colheita.para_dict colheita_B2))]
           (PDict (delete "id_lote" (colheita.para_dict colheita_B2)))
           (KeyError "id_lote")).
  - reflexivity.
  - reflexivity.
  - right. left.
  - vm_compute. reflexivity.
Defined.

(** ** Upsert and lookup by id *)

Section upsert.
Import colheita colheita_service.
Context {F : Type} `{!Aritmetica F}.

Implicit Types (self : ColheitaService F) (c : Colheita F).

(** C5 (amended): [adicionar_colheita] always returns [True]; a record whose
    id is already stored replaces the first record with that id at its index,
    the length being unchanged, and otherwise it is appended; adding the same
    record a second time changes nothing; and when the ids in the state are
    pairwise distinct, exactly one entry carries the id afterwards. *)
Theorem adicionar_colheita_upsert self c :
  (adicionar_colheita self c).2 = true
  /\ match list_find (fun y => id_lote y = id_lote c) self with
     | Some (i, _) =>
         (adicionar_colheita self c).1 = <[i := c]> self
         /\ length (adicionar_colheita self c).1 = length self
         /\ (adicionar_colheita self c).1 !! i = Some c
     | None => (adicionar_colheita self c).1 = self ++ [c]
     end
  /\ adicionar_colheita (adicionar_colheita self c).1 c = adicionar_colheita self c
  /\ (NoDup (id_lote <$> self) ->
      NoDup (id_lote <$> (adicionar_colheita self c).1)
      /\ filter (fun y => id_lote y = id_lote c)
           (adicionar_colheita (adicionar_colheita self c).1 c).1 = [c]).
Proof.
  split_and!.
  - unfold adicionar_colheita. by destruct (list_find _ self) as [[??]|].
  - destruct (list_find _ self) as [[i x]|] eqn:Hf.
    + rewrite (adicionar_colheita_existente _ _ _ _ Hf). cbn [fst].
      apply list_find_Some in Hf as (Hi & _).
      split_and!; [done | apply length_insert |].
      apply list_lookup_insert_eq. by eapply lookup_lt_Some.
    + by rewrite (adicionar_colheita_novo _ _ Hf).
  - apply adicionar_colheita_idempotente.
  - intros Hnd. split; [by apply ids_apos_adicionar|].
    rewrite adicionar_colheita_idempotente.
    apply filter_id_unico; [by apply ids_apos_adicionar|].
    apply adicionar_colheita_elem.
Qed.

Variable float_of_str : string -> option F.

(** C10: the id is checked after [strip] but stored as given.  A record
    whose id differs from the stored one (as "A1" differs from " A1 ") is a
    different key: adding either record leaves the other in place, and looking
    up the stripped form does not find the record stored under the unstripped
    one. *)
Theorem id_lote_guardado_sem_strip (cfg : config F) (s : string)
    (a_tipo a_data a_prev a_colh a_obs a_efic a_perda : pyval F)
    (r c : Colheita F) self :
  colheita.__init__ float_of_str cfg (PStr s) a_tipo a_data a_prev a_colh a_obs
    a_efic a_perda = Ok r ->
  id_lote c <> s ->
  is_empty (strip s) = false
  /\ id_lote r = s
  /\ obter_colheita
       (adicionar_colheita (adicionar_colheita self r).1 c).1 s = Some r
  /\ obter_colheita
       (adicionar_colheita (adicionar_colheita self c).1 r).1 (id_lote c) = Some c
  /\ (strip s <> s ->
      Forall (fun y => id_lote y <> strip s) self ->
      obter_colheita (adicionar_colheita self r).1 (strip s) = None).
Proof.
  intros Hr Hne.
  apply init_Ok_inv in Hr
    as (s0 & t & d & p & h & [= <-] & Hs & _ & _ & _ & _ & _ & _ & _ & _
        & _ & _ & _ & Eid & _).
  split_and!; [done | done | | |].
  - rewrite obter_adicionar_ne by done. rewrite <- Eid. apply obter_adicionar_eq.
  - rewrite obter_adicionar_ne by congruence. apply obter_adicionar_eq.
  - intros Hstrip Hall. rewrite obter_adicionar_ne by congruence.
    by apply obter_ausente.
Qed.

End upsert.

(** C5 (counterexample): a file with two entries for lot A1 loads into a
    state with both; after adding a record for A1 twice, two entries carry
    that id. *)
Lemma upsert_com_ids_repetidos :
  colheita_service.carregar_json float_sem_str cfg_exemplo [] (colheita_service.Conteudo dados_repetidos)
  = ([colheita_A1; colheita_A1_mecanica], true)
  /\ (colheita_service.adicionar_colheita
       (colheita_service.adicionar_colheita [colheita_A1; colheita_A1_mecanica] colheita_A1_nova).1
       colheita_A1_nova).1
     = [colheita_A1_nova; colheita_A1_mecanica]
  /\ length (filter (fun y => colheita.id_lote y = "A1")
               (colheita_service.adicionar_colheita
                  (colheita_service.adicionar_colheita [colheita_A1; colheita_A1_mecanica]
                     colheita_A1_nova).1
                  colheita_A1_nova).1) = 2%nat.
Proof. split_and!; vm_compute; reflexivity. Qed.

Lemma adicionar_colheita_upsert_witness :
  NoDup (colheita.id_lote <$> (colheita_service.adicionar_colheita [colheita_A1; colheita_B2] colheita_A1_nova).1)
  /\ filter (fun y => colheita.id_lote y = colheita.id_lote colheita_A1_nova)
       (colheita_service.adicionar_colheita
          (colheita_service.adicionar_colheita [colheita_A1; colheita_B2] colheita_A1_nova).1
          colheita_A1_nova).1 = [colheita_A1_nova].
Proof.
  apply (adicionar_colheita_upsert [colheita_A1; colheita_B2] colheita_A1_nova).
  apply (bool_decide_unpack _). vm_compute. reflexivity.
Defined.

Lemma id_lote_guardado_sem_strip_witness :
  is_empty (strip " A1 ") = false
  /\ colheita.id_lote colheita_A1_espacos = " A1 "
  /\ colheita_service.obter_colheita
       (colheita_service.adicionar_colheita
          (colheita_service.adicionar_colheita [] colheita_A1_espacos).1
          colheita_A1).1 " A1 " = Some colheita_A1_espacos
  /\ colheita_service.obter_colheita
       (colheita_service.adicionar_colheita
          (colheita_service.adicionar_colheita [] colheita_A1).1
          colheita_A1_espacos).1 (colheita.id_lote colheita_A1) = Some colheita_A1
  /\ (strip " A1 " <> " A1 " ->
      Forall (fun y : colheita.Colheita float => colheita.id_lote y <> strip " A1 ") [] ->
      colheita_service.obter_colheita
        (colheita_service.adicionar_colheita [] colheita_A1_espacos).1
        (strip " A1 ") = None).
Proof.
  apply (id_lote_guardado_sem_strip float_sem_str cfg_exemplo " A1 "
           (PStr "manual") (PStr "01/03/2024") (PInt 100) (PInt 85) (PStr "")
           PNone PNone colheita_A1_espacos colheita_A1 []).
  - vm_compute. reflexivity.
  - vm_compute. discriminate.
Defined.

(** ** Statistics *)

Section estatisticas.
Import colheita colheita_service.
Context {F : Type} `{!Aritmetica F}.

Implicit Types (self : ColheitaService F).

Lemma nao_vazia_true {A} (l : list A) : l <> [] -> nao_vazia l = true.
Proof. by destruct l. Qed.

Lemma filter_nao_vazia {A} (P : A -> Prop) `{!forall x, Decision (P x)} (l : list A) :
  filter P l <> [] -> nao_vazia l = true.
Proof. by destruct l. Qed.

(** The dictionary returned for a state that is not empty. *)
Lemma calcular_estatisticas_nao_vazia self :
  nao_vazia self = true ->
  exists (recomendacoes : list string),
    calcular_estatisticas self =
      let colheitas_manuais := filter (fun c => tipo c = "manual") self in
      let colheitas_mecanicas := filter (fun c => tipo c = "mecanica") self in
      let efic_manual := media_eficiencia colheitas_manuais in
      let efic_mecanica := media_eficiencia colheitas_mecanicas in
      <["total" := PInt (len self)]>
      (<["manual" :=
          estatisticas_tipo (len colheitas_manuais) (py_round efic_manual)]>
      (<["mecanica" :=
          estatisticas_tipo (len colheitas_mecanicas) (py_round efic_mecanica)]>
      (<["diferenca" := py_round (py_abs (py_sub efic_manual efic_mecanica))]>
      (<["recomendacoes" := PList (PStr <$> recomendacoes)]> ∅)))).
Proof.
  intros H. unfold calcular_estatisticas. rewrite H. cbn [negb].
  eexists. reflexivity.
Qed.

(** C6: when both harvest types are present and the mean efficiency of the
    manual records is strictly greater than that of the mechanised ones,
    [calcular_estatisticas] gives exactly three recommendations, in this
    order: manual is (difference, two decimals) percent more efficient, check
    the calibration of the harvesters, review the training of the operators;
    the difference returned is the rounded absolute difference of the two
    means. *)
Theorem recomendacoes_manual_mais_eficiente self :
  let manuais := filter (fun c => tipo c = "manual") self in
  let mecanicas := filter (fun c => tipo c = "mecanica") self in
  let media_manual := f_div (soma_eficiencia manuais) (f_of_Z (len manuais)) in
  let media_mecanica := f_div (soma_eficiencia mecanicas) (f_of_Z (len mecanicas)) in
  manuais <> [] -> mecanicas <> [] ->
  f_ltb media_mecanica media_manual = true ->
  calcular_estatisticas self !! "recomendacoes"
  = Some (PList
      [ PStr ("A colheita manual está "
              +:+ f_fmt2 (f_abs (f_sub media_manual media_mecanica))
              +:+ "% mais eficiente que a mecânica.");
        PStr "Verifique a calibração das máquinas colhedoras.";
        PStr "Revise o treinamento dos operadores." ])
  /\ calcular_estatisticas self !! "diferenca"
     = Some (PFloat (f_round2 (f_abs (f_sub media_manual media_mecanica)))).
Proof.
  intros manuais mecanicas media_manual media_mecanica Hman Hmec Hgt.
  unfold calcular_estatisticas.
  rewrite (filter_nao_vazia _ self Hman). cbn [negb].
  fold manuais mecanicas.
  rewrite (nao_vazia_true _ Hman), (nao_vazia_true _ Hmec). cbn [andb].
  unfold media_eficiencia.
  rewrite (nao_vazia_true _ Hman), (nao_vazia_true _ Hmec).
  fold media_manual media_mecanica.
  cbn [py_sub py_abs py_round num_val]. unfold py_gt. cbn [num_val].
  rewrite Hgt.
  split.
  - rewrite !lookup_insert_ne by done. rewrite lookup_insert_eq. reflexivity.
  - rewrite !lookup_insert_ne by done. rewrite lookup_insert_eq. reflexivity.
Qed.

Variable py_str : pyval F -> string.

(** C8 (amended): [calcular_estatisticas] returns the keys [total], [manual],
    [mecanica], [diferenca] and [recomendacoes] and nothing else; the overall
    mean is computed by [gerar_relatorio], which for a state that is not empty
    writes the arithmetic mean of the efficiency of all records, with two
    decimals, and for an empty state writes only the header and a notice. *)
Theorem media_geral_no_relatorio self (caminho agora : string) :
  dom (calcular_estatisticas self)
  = {[ "total"; "manual"; "mecanica"; "diferenca"; "recomendacoes" ]}
  /\ (self <> [] ->
      media_geral self = PFloat (f_div (soma_eficiencia self) (f_of_Z (len self)))
      /\ (gerar_relatorio py_str self caminho agora).2 = Some caminho
      /\ ("Eficiência média total: "
            +:+ f_fmt2 (f_div (soma_eficiencia self) (f_of_Z (len self)))
            +:+ "%" +:+ nl)
         ∈ (gerar_relatorio py_str self caminho agora).1)
  /\ gerar_relatorio py_str [] caminho agora
     = (cabecalho agora
        ++ [ "Nenhuma colheita registrada para gerar relatório." +:+ nl ],
        Some caminho).
Proof.
  split_and!.
  - unfold calcular_estatisticas. destruct (negb (nao_vazia self));
      cbv zeta; rewrite !dom_insert_L, dom_empty_L; set_solver.
  - intros Hne. pose proof (nao_vazia_true _ Hne) as Hnv.
    assert (Hmedia : media_geral self
                     = PFloat (f_div (soma_eficiencia self) (f_of_Z (len self)))).
    { unfold media_geral, media_eficiencia. by rewrite Hnv. }
    split; [exact Hmedia|].
    destruct (calcular_estatisticas_nao_vazia self Hnv) as [recs Hstats].
    cbv zeta in Hstats.
    unfold gerar_relatorio. rewrite Hnv. cbn [negb]. cbv zeta.
    unfold linhas_resumo, linhas_eficiencia, linhas_recomendacoes.
    rewrite Hstats, Hmedia. cbn [num_val].
    unfold estatisticas_tipo.
    repeat (unfold getitem, py_getitem;
            first [rewrite lookup_insert_eq | rewrite lookup_insert_ne by done];
            cbn [mbind result_bind]).
    cbn [mbind result_bind py_iter fst snd].
    split; [reflexivity|].
    rewrite !elem_of_app. right. right. left.
    right. left.
  - reflexivity.
Qed.

End estatisticas.

Lemma recomendacoes_manual_mais_eficiente_witness :
  colheita_service.calcular_estatisticas [colheita_A1; colheita_B2] !! "recomendacoes"
  = Some (PList
      [ PStr "A colheita manual está 20.00% mais eficiente que a mecânica.";
        PStr "Verifique a calibração das máquinas colhedoras.";
        PStr "Revise o treinamento dos operadores." ])
  /\ colheita_service.calcular_estatisticas [colheita_A1; colheita_B2] !! "diferenca"
     = Some (PFloat 20%float).
Proof.
  exact (recomendacoes_manual_mais_eficiente [colheita_A1; colheita_B2]
           ltac:(vm_compute; discriminate) ltac:(vm_compute; discriminate)
           ltac:(vm_compute; reflexivity)).
Defined.

(** C8 (counterexample): for one manual record at 90% and one mechanised at
    70% the overall mean is 80, and no entry of the dictionary returned by
    [calcular_estatisticas], nor of the dictionaries and lists inside it, is
    80. *)
Lemma estatisticas_sem_media_geral :
  colheita_service.media_geral [colheita_A1; colheita_B2] = PFloat 80%float
  /\ map_Forall (fun _ v => contem_numero 80%float v = false)
       (colheita_service.calcular_estatisticas [colheita_A1; colheita_B2]).
Proof.
  split; [reflexivity|].
  apply (bool_decide_unpack _). vm_compute. reflexivity.
Qed.

Lemma media_geral_no_relatorio_witness :
  colheita_service.media_geral [colheita_A1; colheita_B2] = PFloat 80%float
  /\ (colheita_service.gerar_relatorio str_opaco [colheita_A1; colheita_B2]
        "relatorio.txt" "01/03/2024 10:00:00").2 = Some "relatorio.txt"
  /\ ("Eficiência média total: 80.00%" +:+ nl)
     ∈ (colheita_service.gerar_relatorio str_opaco [colheita_A1; colheita_B2]
          "relatorio.txt" "01/03/2024 10:00:00").1.
Proof.
  exact (proj1 (proj2 (media_geral_no_relatorio str_opaco
                         [colheita_A1; colheita_B2]
                         "relatorio.txt" "01/03/2024 10:00:00"))
           ltac:(discriminate)).
Defined.

(** ** Dates *)

Section datas.
Import colheita.
Context {F : Type}.
Local Abbreviation _validar_data := (colheita._validar_data (F := F)).

Lemma digito_nao_especial (a : ascii) :
  is_digit a = true ->
  Ascii.eqb a "/" = false /\ py_isspace a = false
  /\ forall r, separa_sinal (String a r) = (false, String a r).
Proof.
  destruct a as [[] [] [] [] [] [] [] []]; try discriminate; intros _;
    split_and!; reflexivity.
Qed.

Lemma rstrip_digitos (s : string) : todos_digitos s = true -> rstrip s = s.
Proof.
  induction s as [|a s IH]; [reflexivity|]. simpl.
  intros [Ha Hs]%andb_true_iff.
  destruct (digito_nao_especial a Ha) as (_ & -> & _).
  rewrite andb_false_r, (IH Hs). reflexivity.
Qed.

Lemma rstrip_digitos_nl (s : string) :
  todos_digitos s = true -> rstrip (s +:+ nl) = s.
Proof.
  induction s as [|a s IH]; [reflexivity|]. simpl.
  intros [Ha Hs]%andb_true_iff.
  destruct (digito_nao_especial a Ha) as (_ & -> & _).
  rewrite andb_false_r. f_equal. exact (IH Hs).
Qed.

(** [int] of a run of digits, with or without a newline after it. *)
Lemma py_int_digitos (a : ascii) (s : string) (n : Z) :
  is_digit a = true -> todos_digitos s = true ->
  digits_value 0 (String a s) = Some n ->
  py_int (String a s) = Ok n /\ py_int (String a s +:+ nl) = Ok n.
Proof.
  intros Ha Hs Hn.
  destruct (digito_nao_especial a Ha) as (_ & Hsp & Hsinal).
  assert (Hd : todos_digitos (String a s) = true) by (simpl; by rewrite Ha, Hs).
  split; unfold py_int, strip.
  - cbn [lstrip]. rewrite Hsp, (rstrip_digitos _ Hd), Hsinal.
    cbn [is_empty]. by rewrite Hn.
  - change (String a s +:+ nl) with (String a (s +:+ nl)).
    cbn [lstrip]. rewrite Hsp.
    change (String a (s +:+ nl)) with (String a s +:+ nl).
    rewrite (rstrip_digitos_nl _ Hd), Hsinal.
    cbn [is_empty]. by rewrite Hn.
Qed.

Lemma digits_value_2 (a b : ascii) :
  is_digit a = true -> is_digit b = true ->
  digits_value 0 (String a (String b EmptyString))
  = Some (digito a * 10 + digito b)%Z.
Proof. intros Ha Hb. simpl. rewrite Ha, Hb. reflexivity. Qed.

Lemma digits_value_4 (a b c d : ascii) :
  is_digit a = true -> is_digit b = true ->
  is_digit c = true -> is_digit d = true ->
  digits_value 0 (String a (String b (String c (String d EmptyString))))
  = Some (((digito a * 10 + digito b) * 10 + digito c) * 10 + digito d)%Z.
Proof. intros Ha Hb Hc Hd. simpl. rewrite Ha, Hb, Hc, Hd. reflexivity. Qed.

(** The pattern accepts the ten-character form and that form followed by a
    newline, nothing else. *)
Lemma padrao_match_formato (s : string) :
  padrao_match s = true <->
  formato_DD_MM_AAAA s = true
  \/ exists t, s = t +:+ nl /\ formato_DD_MM_AAAA t = true.
Proof.
  split.
  - intros H.
    do 10 (destruct s as [|? s]; [discriminate H|]).
    cbn [padrao_match] in H. apply andb_true_iff in H as [H Hfim].
    destruct s as [|c [|? ?]]; [| |discriminate Hfim].
    + left. exact H.
    + right. apply Ascii.eqb_eq in Hfim as ->.
      eexists (String _ (String _ (String _ (String _ (String _ (String _
                (String _ (String _ (String _ (String _ EmptyString)))))))))).
      split; [reflexivity | exact H].
  - intros [H | (t & -> & H)].
    + do 10 (destruct s as [|? s]; [discriminate H|]).
      destruct s; [|discriminate H].
      cbn [padrao_match]. cbn [formato_DD_MM_AAAA] in H. by rewrite H.
    + do 10 (destruct t as [|? t]; [discriminate H|]).
      destruct t; [|discriminate H].
      cbv [String.append nl]. cbn [padrao_match]. cbn [formato_DD_MM_AAAA] in H. by rewrite H.
Qed.

(** On a string of the form DD/MM/AAAA the method decides whether the day
    exists, and a newline after the string changes nothing. *)
Lemma validar_data_formato (s : string) :
  formato_DD_MM_AAAA s = true ->
  _validar_data (PStr s) = Ok (data_DD_MM_AAAA s)
  /\ _validar_data (PStr (s +:+ nl)) = Ok (data_DD_MM_AAAA s).
Proof.
  intros Hf.
  do 10 (destruct s as [|? s]; [discriminate Hf|]).
  destruct s; [|discriminate Hf].
  rename a into d1, a0 into d2, a1 into b1, a2 into m1, a3 into m2,
    a4 into b2, a5 into y1, a6 into y2, a7 into y3, a8 into y4.
  assert (Hf' := Hf). cbn [formato_DD_MM_AAAA] in Hf'.
  apply andb_true_iff in Hf' as [Hf' Dy4].
  apply andb_true_iff in Hf' as [Hf' Dy3].
  apply andb_true_iff in Hf' as [Hf' Dy2].
  apply andb_true_iff in Hf' as [Hf' Dy1].
  apply andb_true_iff in Hf' as [Hf' Eb2].
  apply andb_true_iff in Hf' as [Hf' Dm2].
  apply andb_true_iff in Hf' as [Hf' Dm1].
  apply andb_true_iff in Hf' as [Hf' Eb1].
  apply andb_true_iff in Hf' as [Dd1 Dd2].
  apply Ascii.eqb_eq in Eb1, Eb2. subst b1 b2.
  destruct (digito_nao_especial d1 Dd1) as (Hd1 & _).
  destruct (digito_nao_especial d2 Dd2) as (Hd2 & _).
  destruct (digito_nao_especial m1 Dm1) as (Hm1 & _).
  destruct (digito_nao_especial m2 Dm2) as (Hm2 & _).
  destruct (digito_nao_especial y1 Dy1) as (Hy1 & _).
  destruct (digito_nao_especial y2 Dy2) as (Hy2 & _).
  destruct (digito_nao_especial y3 Dy3) as (Hy3 & _).
  destruct (digito_nao_especial y4 Dy4) as (Hy4 & _).
  destruct (py_int_digitos d1 (String d2 EmptyString) _ Dd1
              ltac:(simpl; by rewrite Dd2) (digits_value_2 _ _ Dd1 Dd2)) as [Hdia _].
  destruct (py_int_digitos m1 (String m2 EmptyString) _ Dm1
              ltac:(simpl; by rewrite Dm2) (digits_value_2 _ _ Dm1 Dm2)) as [Hmes _].
  destruct (py_int_digitos y1 (String y2 (String y3 (String y4 EmptyString))) _ Dy1
              ltac:(simpl; by rewrite Dy2, Dy3, Dy4)
              (digits_value_4 _ _ _ _ Dy1 Dy2 Dy3 Dy4)) as [Hano Hano_nl].
  unfold data_DD_MM_AAAA. rewrite Hf. cbn [andb].
  split.
  - unfold _validar_data.
    rewrite (proj2 (padrao_match_formato _) (or_introl Hf)). cbn [negb].
    cbn [split_barra]. rewrite Hd1, Hd2, Hm1, Hm2, Hy1, Hy2, Hy3, Hy4.
    cbn [Ascii.eqb Bool.eqb mapM]. rewrite Hdia, Hmes, Hano.
    cbn [mbind result_bind]. unfold datetime, dia_existe.
    by destruct (_ && _).
  - unfold _validar_data.
    rewrite (proj2 (padrao_match_formato _)
               (or_intror (ex_intro _ _ (conj eq_refl Hf)))).
    cbv [String.append nl]. cbn [negb].
    cbn [split_barra]. rewrite Hd1, Hd2, Hm1, Hm2, Hy1, Hy2, Hy3, Hy4.
    cbn [Ascii.eqb Bool.eqb mapM]. rewrite Hdia, Hmes.
    change (String y1 (String y2 (String y3 (String y4 (String "010" EmptyString)))))
      with (String y1 (String y2 (String y3 (String y4 EmptyString))) +:+ nl).
    rewrite Hano_nl.
    cbn [mbind result_bind]. unfold datetime, dia_existe.
    by destruct (_ && _).
Qed.

(** Whatever is neither of that form nor that form plus a newline is
    refused. *)
Lemma validar_data_fora_do_formato (s : string) :
  padrao_match s = false -> _validar_data (PStr s) = Ok false.
Proof. unfold _validar_data. by intros ->. Qed.

Lemma data_DD_MM_AAAA_formato (s : string) :
  data_DD_MM_AAAA s = true -> formato_DD_MM_AAAA s = true.
Proof.
  do 10 (destruct s as [|? s]; [discriminate|]).
  unfold data_DD_MM_AAAA. by intros [? _]%andb_true_iff.
Qed.

(** The strings [_validar_data] accepts: the dates of the specification, and
    those dates followed by one newline. *)
Lemma validar_data_aceita (s : string) :
  _validar_data (PStr s) = Ok true <->
  data_DD_MM_AAAA s = true
  \/ exists t, s = t +:+ nl /\ data_DD_MM_AAAA t = true.
Proof.
  split.
  - intros H. destruct (padrao_match s) eqn:Hp.
    + apply padrao_match_formato in Hp as [Hf | (t & -> & Hf)].
      * left. destruct (validar_data_formato s Hf) as [E _]. congruence.
      * right. exists t. split; [reflexivity|].
        destruct (validar_data_formato t Hf) as [_ E]. congruence.
    + rewrite (validar_data_fora_do_formato s Hp) in H. discriminate.
  - intros [H | (t & -> & H)].
    + destruct (validar_data_formato s (data_DD_MM_AAAA_formato s H)) as [E _].
      by rewrite E, H.
    + destruct (validar_data_formato t (data_DD_MM_AAAA_formato t H)) as [_ E].
      by rewrite E, H.
Qed.

End datas.

(** C7 (as the code has it): "31/02/2024" is refused and "29/02/2024" is
    accepted, and so is "29/02/2024" followed by a newline, which is eleven
    characters long and not of the form DD/MM/AAAA: [$] in the pattern matches
    before a final newline and [int] ignores it. *)
Theorem validar_data_aceita_nova_linha :
  colheita._validar_data (PStr "31/02/2024" : pyval float) = Ok false
  /\ colheita._validar_data (PStr "29/02/2024" : pyval float) = Ok true
  /\ colheita._validar_data (PStr ("29/02/2024" +:+ nl) : pyval float) = Ok true
  /\ formato_DD_MM_AAAA ("29/02/2024" +:+ nl) = false
  /\ data_DD_MM_AAAA ("29/02/2024" +:+ nl) = false.
Proof. split_and!; vm_compute; reflexivity. Qed.


(** * Further properties of the code *)

(** ** The constructor and the dictionary form *)

Section construtor_mais.
Import colheita.
Context {F : Type} `{!Aritmetica F}.

Variable float_of_str : string -> option F.
Local Abbreviation py_float := (colheita.py_float float_of_str).
Local Abbreviation __init__ := (colheita.__init__ float_of_str).
Local Abbreviation de_dict := (colheita.de_dict float_of_str).

(** X1: whatever the constructor returns is well formed: the id is not blank,
    the type is one of the configured ones and in lower case, the date passes
    the date check and both amounts are inside the configured limits. *)
Theorem construtor_bem_formada (cfg : config F)
    (a_id a_tipo a_data a_prev a_colh a_obs a_efic a_perda : pyval F)
    (r : Colheita F) :
  __init__ cfg a_id a_tipo a_data a_prev a_colh a_obs a_efic a_perda = Ok r ->
  bem_formada cfg r.
Proof.
  intros Hr.
  apply init_Ok_inv in Hr
    as (s & t & d & p & h & _ & Hs & _ & Ht & _ & Hd & _ & Hp0 & Hp1 & _
        & Hh0 & Hh1 & _ & <- & Etipo & <- & <- & <- & _).
  unfold bem_formada. rewrite Etipo, lower_idem. by split_and!.
Qed.

(** A well-formed record is read back from its dictionary. *)
Lemma de_dict_para_dict_bem_formada (cfg : config F) (r : Colheita F) :
  bem_formada cfg r -> de_dict cfg (PDict (para_dict r)) = Ok r.
Proof.
  intros (Hs & Ht & Hlow & Hd & Hp0 & Hp1 & Hh0 & Hh1).
  rewrite de_dict_para_dict_args, init_de_valores; try assumption.
  - rewrite Hlow. by destruct r.
  - by rewrite Hlow.
Qed.

(** X2: the type is case-insensitive: the constructor gives the same result
    for a type and for its lower-case form. *)
Theorem construtor_tipo_sem_caixa (cfg : config F) (t : string)
    (a_id a_data a_prev a_colh a_obs a_efic a_perda : pyval F) :
  __init__ cfg a_id (PStr t) a_data a_prev a_colh a_obs a_efic a_perda
  = __init__ cfg a_id (PStr (lower t)) a_data a_prev a_colh a_obs a_efic a_perda.
Proof.
  unfold colheita.__init__, _validar_tipo.
  cbn [py_lower mbind result_bind]. rewrite lower_idem. reflexivity.
Qed.

(** X3: arguments of the wrong type.  An id that is not a string is refused
    with the [ValueError] of the id check; but, the id being good, a type that
    is not a string raises [AttributeError], and, id and type being good, a
    date that is not a string raises [TypeError]. *)
Theorem construtor_tipos_errados (cfg : config F) (s t : string)
    (v a_tipo a_data a_prev a_colh a_obs a_efic a_perda : pyval F) :
  (forall x, v <> PStr x) ->
  __init__ cfg v a_tipo a_data a_prev a_colh a_obs a_efic a_perda
  = Raise (ValueError IdLoteInvalido)
  /\ (is_empty (strip s) = false ->
      __init__ cfg (PStr s) v a_data a_prev a_colh a_obs a_efic a_perda
      = Raise AttributeError)
  /\ (is_empty (strip s) = false -> lower t ∈ TIPOS_COLHEITA cfg ->
      __init__ cfg (PStr s) (PStr t) v a_prev a_colh a_obs a_efic a_perda
      = Raise TypeError).
Proof.
  intros Hv. split_and!.
  - unfold colheita.__init__. by destruct v; [..|]; try reflexivity; destruct (Hv s0).
  - intros Hs. unfold colheita.__init__, _validar_id_lote. rewrite Hs. cbn [negb].
    destruct v; try reflexivity. by destruct (Hv s0).
  - intros Hs Ht. unfold colheita.__init__, _validar_id_lote, _validar_tipo.
    rewrite Hs. cbn [negb py_lower mbind result_bind].
    rewrite (bool_decide_eq_true_2 _ Ht). cbn [negb].
    destruct v; try reflexivity. by destruct (Hv s0).
Qed.

End construtor_mais.

Lemma construtor_tipos_errados_witness :
  colheita.__init__ float_sem_str cfg_exemplo (PInt 7) (PStr "manual")
    (PStr "01/03/2024") (PInt 100) (PInt 80) (PStr "") PNone PNone
  = Raise (ValueError IdLoteInvalido)
  /\ (is_empty (strip "L1") = false ->
      colheita.__init__ float_sem_str cfg_exemplo (PStr "L1") (PInt 7)
        (PStr "01/03/2024") (PInt 100) (PInt 80) (PStr "") PNone PNone
      = Raise AttributeError)
  /\ (is_empty (strip "L1") = false ->
      lower "Manual" ∈ TIPOS_COLHEITA cfg_exemplo ->
      colheita.__init__ float_sem_str cfg_exemplo (PStr "L1") (PStr "Manual")
        (PInt 7) (PInt 100) (PInt 80) (PStr "") PNone PNone
      = Raise TypeError).
Proof.
  apply (construtor_tipos_errados float_sem_str cfg_exemplo "L1" "Manual"
           (PInt 7) (PStr "manual") (PStr "01/03/2024") (PInt 100) (PInt 80)
           (PStr "") PNone PNone).
  intros x. discriminate.
Defined.

Lemma construtor_bem_formada_witness : bem_formada cfg_exemplo colheita_L1.
Proof.
  apply (construtor_bem_formada float_sem_str cfg_exemplo
           (PStr "L1") (PStr "Manual") (PStr "29/02/2024") (PInt 90) (PInt 60)
           (PStr "talhao norte") PNone PNone colheita_L1).
  vm_compute. reflexivity.
Defined.

Section dicionario.
Import colheita.
Context {F : Type} `{!Aritmetica F}.

Variable float_of_str : string -> option F.
Local Abbreviation py_float := (colheita.py_float float_of_str).
Local Abbreviation __init__ := (colheita.__init__ float_of_str).
Local Abbreviation de_dict := (colheita.de_dict float_of_str).

(** X4: the two checks of the amounts do not raise on a value that [float]
    converts or refuses with [ValueError] or [TypeError]: each answers [True]
    exactly when [float] converts the argument and the number lies inside its
    limits, and [False] when [float] raises.  (An [int] too large for a float
    makes [float] raise [OverflowError], which the [except] clause does not
    catch.) *)
Theorem validar_toneladas_nunca_levanta (cfg : config F) (v : pyval F) :
  sem_estouro v ->
  _validar_previsto float_of_str cfg v
  = Ok (match py_float v with
        | Ok x => f_leb (limite0 cfg) x && f_leb x (limite1 cfg)
        | Raise _ => false
        end)
  /\ _validar_colhido float_of_str cfg v
     = Ok (match py_float v with
           | Ok x => f_leb (limite2 cfg) x && f_leb x (limite3 cfg)
           | Raise _ => false
           end).
Proof.
  intros Hv. unfold _validar_previsto, _validar_colhido.
  destruct v as [| |z| |s| |]; try (split; reflexivity).
  - cbn [colheita.py_float]. rewrite (sem_estouro_cabe z Hv). split; reflexivity.
  - cbn [colheita.py_float]. destruct (float_of_str s); split; reflexivity.
Qed.

(** X5: [de_dict] ignores every key it does not know: adding one to the
    dictionary changes nothing. *)
Theorem de_dict_ignora_outras_chaves (cfg : config F)
    (d : gmap string (pyval F)) (k : string) (v : pyval F) :
  k ∉ chaves_lidas ->
  de_dict cfg (PDict (<[k := v]> d)) = de_dict cfg (PDict d).
Proof.
  intros Hk. unfold chaves_lidas in Hk.
  repeat (apply not_elem_of_cons in Hk as [? Hk]).
  unfold colheita.de_dict, getitem, get.
  by rewrite !lookup_insert_ne by done.
Qed.

Lemma init_sem_perda (cfg : config F)
    (a_id a_tipo a_data a_prev a_colh a_obs e e' : pyval F) :
  __init__ cfg a_id a_tipo a_data a_prev a_colh a_obs e PNone
  = __init__ cfg a_id a_tipo a_data a_prev a_colh a_obs e' PNone.
Proof.
  unfold colheita.__init__. cbn [is_None]. by rewrite !orb_true_r.
Qed.

Lemma init_sem_eficiencia (cfg : config F)
    (a_id a_tipo a_data a_prev a_colh a_obs p p' : pyval F) :
  __init__ cfg a_id a_tipo a_data a_prev a_colh a_obs PNone p
  = __init__ cfg a_id a_tipo a_data a_prev a_colh a_obs PNone p'.
Proof. reflexivity. Qed.

(** X6: efficiency and loss are trusted only together.  When the dictionary
    has no loss (the key is absent or holds [None]) the stored efficiency is
    not used: dropping it gives the same result; and likewise for a loss
    stored without an efficiency. *)
Theorem de_dict_eficiencia_sem_perda (cfg : config F) (d : gmap string (pyval F)) :
  (d !! "perda" = None \/ d !! "perda" = Some PNone ->
   de_dict cfg (PDict d) = de_dict cfg (PDict (delete "eficiencia" d)))
  /\ (d !! "eficiencia" = None \/ d !! "eficiencia" = Some PNone ->
      de_dict cfg (PDict d) = de_dict cfg (PDict (delete "perda" d))).
Proof.
  split; intros Hd; unfold colheita.de_dict, getitem, get.
  - rewrite (lookup_delete_ne d "eficiencia" "id_lote") by done.
    rewrite (lookup_delete_ne d "eficiencia" "tipo") by done.
    rewrite (lookup_delete_ne d "eficiencia" "data") by done.
    rewrite (lookup_delete_ne d "eficiencia" "previsto") by done.
    rewrite (lookup_delete_ne d "eficiencia" "colhido") by done.
    rewrite (lookup_delete_ne d "eficiencia" "obs") by done.
    rewrite (lookup_delete_ne d "eficiencia" "perda") by done.
    rewrite lookup_delete_eq.
    assert (Hp : default PNone (d !! "perda") = PNone) by (by destruct Hd as [-> | ->]).
    rewrite Hp. cbn [default].
    destruct (d !! "id_lote"); [|done]. destruct (d !! "tipo"); [|done].
    destruct (d !! "data"); [|done]. destruct (d !! "previsto"); [|done].
    destruct (d !! "colhido"); [|done]. cbn [mbind result_bind].
    apply init_sem_perda.
  - rewrite (lookup_delete_ne d "perda" "id_lote") by done.
    rewrite (lookup_delete_ne d "perda" "tipo") by done.
    rewrite (lookup_delete_ne d "perda" "data") by done.
    rewrite (lookup_delete_ne d "perda" "previsto") by done.
    rewrite (lookup_delete_ne d "perda" "colhido") by done.
    rewrite (lookup_delete_ne d "perda" "obs") by done.
    rewrite (lookup_delete_ne d "perda" "eficiencia") by done.
    rewrite lookup_delete_eq.
    assert (Hp : default PNone (d !! "eficiencia") = PNone)
      by (by destruct Hd as [-> | ->]).
    rewrite Hp. cbn [default].
    destruct (d !! "id_lote"); [|done]. destruct (d !! "tipo"); [|done].
    destruct (d !! "data"); [|done]. destruct (d !! "previsto"); [|done].
    destruct (d !! "colhido"); [|done]. cbn [mbind result_bind].
    apply init_sem_eficiencia.
Qed.

(** X7: a dictionary that lacks one of the five required keys is refused with
    a [KeyError] naming a required key it lacks, whatever the other entries
    hold; no validation is reached. *)
Theorem de_dict_chave_em_falta (cfg : config F) (d : gmap string (pyval F))
    (k : string) :
  k ∈ ["id_lote"; "tipo"; "data"; "previsto"; "colhido"] ->
  d !! k = None ->
  exists k', k' ∈ ["id_lote"; "tipo"; "data"; "previsto"; "colhido"]
    /\ d !! k' = None
    /\ de_dict cfg (PDict d) = Raise (KeyError k').
Proof.
  intros Hk Hd. unfold colheita.de_dict, getitem.
  destruct (d !! "id_lote") eqn:E1;
    [|exists "id_lote"; split_and!; [repeat constructor | done | done]].
  destruct (d !! "tipo") eqn:E2;
    [|exists "tipo"; split_and!; [repeat constructor | done | done]].
  destruct (d !! "data") eqn:E3;
    [|exists "data"; split_and!; [repeat constructor | done | done]].
  destruct (d !! "previsto") eqn:E4;
    [|exists "previsto"; split_and!; [repeat constructor | done | done]].
  destruct (d !! "colhido") eqn:E5;
    [|exists "colhido"; split_and!; [repeat constructor | done | done]].
  exfalso.
  repeat (apply elem_of_cons in Hk as [-> | Hk]; [congruence|]).
  by apply elem_of_nil in Hk.
Qed.

End dicionario.

Lemma validar_toneladas_nunca_levanta_witness :
  colheita._validar_previsto float_sem_str cfg_exemplo (PInt 20000) = Ok false
  /\ colheita._validar_colhido float_sem_str cfg_exemplo (PStr "dez") = Ok false.
Proof.
  split.
  - exact (proj1 (validar_toneladas_nunca_levanta float_sem_str cfg_exemplo
                    (PInt 20000) ltac:(vm_compute; reflexivity))).
  - exact (proj2 (validar_toneladas_nunca_levanta float_sem_str cfg_exemplo
                    (PStr "dez") I)).
Defined.

Lemma de_dict_ignora_outras_chaves_witness :
  colheita.de_dict float_sem_str cfg_exemplo
    (PDict (<["operador" := PStr "Ana"]> (colheita.para_dict colheita_L1)))
  = colheita.de_dict float_sem_str cfg_exemplo (PDict (colheita.para_dict colheita_L1)).
Proof.
  apply de_dict_ignora_outras_chaves. unfold chaves_lidas.
  repeat (apply not_elem_of_cons; split; [discriminate|]). apply not_elem_of_nil.
Defined.

Lemma de_dict_eficiencia_sem_perda_witness :
  colheita.de_dict float_sem_str cfg_exemplo (PDict dicionario_sem_perda)
  = colheita.de_dict float_sem_str cfg_exemplo
      (PDict (delete "eficiencia" dicionario_sem_perda)).
Proof.
  exact (proj1 (de_dict_eficiencia_sem_perda float_sem_str cfg_exemplo
                  dicionario_sem_perda) (or_introl eq_refl)).
Defined.

Lemma de_dict_chave_em_falta_witness :
  exists k', k' ∈ ["id_lote"; "tipo"; "data"; "previsto"; "colhido"]
    /\ dicionario_sem_data !! k' = None
    /\ colheita.de_dict float_sem_str cfg_exemplo (PDict dicionario_sem_data)
       = Raise (KeyError k').
Proof.
  exact (de_dict_chave_em_falta float_sem_str cfg_exemplo dicionario_sem_data "data"
           ltac:(repeat constructor) eq_refl).
Defined.

(** ** The store: [remover_colheita] *)

Section remocao.
Import colheita colheita_service.
Context {F : Type}.

Implicit Types (self : ColheitaService F) (c y : Colheita F) (k : string).

Lemma remover_colheita_cons self y k :
  remover_colheita (y :: self) k
  = if decide (id_lote y = k) then (self, true)
    else (y :: (remover_colheita self k).1, (remover_colheita self k).2).
Proof.
  unfold remover_colheita. cbn [list_find].
  destruct (decide (id_lote y = k)); [reflexivity|].
  by destruct (list_find _ self) as [[i x]|].
Qed.

Lemma obter_colheita_cons self y k :
  obter_colheita (y :: self) k
  = if decide (id_lote y = k) then Some y else obter_colheita self k.
Proof.
  unfold obter_colheita. cbn [list_find].
  destruct (decide (id_lote y = k)); [reflexivity|].
  by destruct (list_find _ self) as [[i x]|].
Qed.

Lemma remover_colheita_sublist self k : (remover_colheita self k).1 `sublist_of` self.
Proof.
  unfold remover_colheita. destruct (list_find _ self) as [[i x]|]; cbn [fst].
  - apply sublist_delete.
  - reflexivity.
Qed.

(** X9: [remover_colheita] deletes the first record with the id and nothing
    else.  It answers whether some record has the id; the records with other
    ids are kept, in order; of the records with the id, all but the first are
    kept; and the length drops by one exactly when the answer is [True]. *)
Theorem remover_colheita_efeito self k :
  (remover_colheita self k).2 = bool_decide (k ∈ id_lote <$> self)
  /\ filter (fun y => id_lote y <> k) (remover_colheita self k).1
     = filter (fun y => id_lote y <> k) self
  /\ filter (fun y => id_lote y = k) (remover_colheita self k).1
     = tail (filter (fun y => id_lote y = k) self)
  /\ length self
     = (length (remover_colheita self k).1
        + (if (remover_colheita self k).2 then 1 else 0))%nat.
Proof.
  induction self as [|y l (IH1 & IH2 & IH3 & IH4)].
  - split_and!; reflexivity.
  - rewrite remover_colheita_cons. destruct (decide (id_lote y = k)) as [E|E].
    + cbn [fst snd]. split_and!.
      * symmetry. apply bool_decide_eq_true. rewrite fmap_cons, E. left.
      * rewrite filter_cons_False; [done|]. by intros H.
      * by rewrite filter_cons_True.
      * cbn [length]. lia.
    + cbn [fst snd]. split_and!.
      * rewrite IH1. rewrite fmap_cons. apply bool_decide_ext.
        rewrite elem_of_cons. split; [by right | by intros [->|?]].
      * rewrite !filter_cons_True by done. by rewrite IH2.
      * rewrite !filter_cons_False by done. exact IH3.
      * cbn [length]. lia.
Qed.

(** X10: removing the record just added.  If the id was not in the store, the
    store is back as it was; if it was, the record that the addition replaced
    is gone as well: the result is the one of removing the id from the
    original store. *)
Theorem remover_apos_adicionar self c :
  remover_colheita (adicionar_colheita self c).1 (id_lote c)
  = match obter_colheita self (id_lote c) with
    | Some _ => remover_colheita self (id_lote c)
    | None => (self, true)
    end.
Proof.
  unfold obter_colheita.
  destruct (list_find (fun y => id_lote y = id_lote c) self) as [[i x]|] eqn:Hf.
  - rewrite (adicionar_colheita_existente _ _ _ _ Hf). cbn [fst fmap option_fmap option_map].
    unfold remover_colheita.
    rewrite (list_find_substituido _ _ _ x c Hf eq_refl), Hf.
    f_equal. apply list_find_Some in Hf as (Hi & _).
    apply lookup_lt_Some in Hi. clear -Hi.
    revert i Hi. induction self as [|y l IH]; intros i Hi; [simpl in Hi; lia|].
    destruct i as [|i]; [reflexivity|]. cbn. f_equal. apply IH. simpl in Hi. lia.
  - rewrite (adicionar_colheita_novo _ _ Hf). cbn [fst fmap option_fmap option_map].
    unfold remover_colheita.
    rewrite (list_find_acrescentado _ _ c Hf eq_refl).
    by rewrite delete_middle, app_nil_r.
Qed.

Lemma obter_remover_ne self k k' :
  k' <> k -> obter_colheita (remover_colheita self k).1 k' = obter_colheita self k'.
Proof.
  intros Hk. induction self as [|y l IH]; [reflexivity|].
  rewrite remover_colheita_cons. destruct (decide (id_lote y = k)) as [E|E]; cbn [fst].
  - rewrite obter_colheita_cons. rewrite decide_False by congruence. reflexivity.
  - rewrite !obter_colheita_cons. by rewrite IH.
Qed.

Lemma ids_apos_remover self k :
  NoDup (id_lote <$> self) -> NoDup (id_lote <$> (remover_colheita self k).1).
Proof.
  intros Hnd. eapply sublist_NoDup; [exact Hnd|].
  apply fmap_sublist, remover_colheita_sublist.
Qed.

Lemma obter_remover_eq self k :
  NoDup (id_lote <$> self) -> obter_colheita (remover_colheita self k).1 k = None.
Proof.
  intros Hnd. induction self as [|y l IH]; [reflexivity|].
  rewrite fmap_cons in Hnd. apply NoDup_cons in Hnd as [Hy Hnd].
  rewrite remover_colheita_cons. destruct (decide (id_lote y = k)) as [E|E]; cbn [fst].
  - apply obter_ausente. apply Forall_forall. intros z Hz Ez.
    apply Hy. rewrite E, <- Ez. by apply list_elem_of_fmap_2.
  - rewrite obter_colheita_cons, decide_False by done. by apply IH.
Qed.

(** X11: [remover_colheita] leaves every other id as it was; and when the ids
    in the store are pairwise distinct they stay so and the removed id is no
    longer found. *)
Theorem remover_colheita_busca self k :
  (forall k', k' <> k ->
     obter_colheita (remover_colheita self k).1 k' = obter_colheita self k')
  /\ (NoDup (id_lote <$> self) ->
      NoDup (id_lote <$> (remover_colheita self k).1)
      /\ obter_colheita (remover_colheita self k).1 k = None).
Proof.
  split.
  - intros k'. apply obter_remover_ne.
  - intros Hnd. split; [by apply ids_apos_remover | by apply obter_remover_eq].
Qed.

Lemma executar_simula self (m : gmap string (Colheita F)) (op : operacao F) :
  NoDup (id_lote <$> self) -> (forall k, obter_colheita self k = m !! k) ->
  NoDup (id_lote <$> executar self op)
  /\ (forall k, obter_colheita (executar self op) k = aplicar m op !! k).
Proof.
  intros Hnd Hm. destruct op as [c|k0]; cbn [executar aplicar].
  - split; [by apply ids_apos_adicionar|]. intros k.
    destruct (decide (id_lote c = k)) as [<-|Hne].
    + by rewrite obter_adicionar_eq, lookup_insert_eq.
    + by rewrite obter_adicionar_ne, lookup_insert_ne.
  - split; [by apply ids_apos_remover|]. intros k.
    destruct (decide (k = k0)) as [->|Hne].
    + by rewrite obter_remover_eq, lookup_delete_eq.
    + rewrite obter_remover_ne, lookup_delete_ne by done. apply Hm.
Qed.

Lemma executar_sequencia self (m : gmap string (Colheita F)) (ops : list (operacao F)) :
  NoDup (id_lote <$> self) -> (forall k, obter_colheita self k = m !! k) ->
  NoDup (id_lote <$> foldl executar self ops)
  /\ (forall k, obter_colheita (foldl executar self ops) k = foldl aplicar m ops !! k).
Proof.
  revert self m. induction ops as [|op ops IH]; intros self m Hnd Hm; [done|].
  cbn [foldl]. destruct (executar_simula self m op Hnd Hm) as [Hnd' Hm'].
  by apply IH.
Qed.

(** X12: a store that starts empty and is changed only through
    [adicionar_colheita] and [remover_colheita] behaves as a dictionary keyed
    by the id: after any sequence of such calls the ids are pairwise distinct,
    [obter_colheita] answers what the dictionary holds after the same
    insertions and deletions, and [remover_colheita] answers whether the
    dictionary has the key. *)
Theorem armazem_como_dicionario (ops : list (operacao F)) :
  NoDup (id_lote <$> foldl executar __init__ ops)
  /\ (forall k, obter_colheita (foldl executar __init__ ops) k
               = foldl aplicar ∅ ops !! k)
  /\ (forall k, (remover_colheita (foldl executar __init__ ops) k).2
               = bool_decide (is_Some (foldl aplicar ∅ ops !! k))).
Proof.
  destruct (executar_sequencia __init__ ∅ ops) as [Hnd Hm].
  { apply NoDup_nil_2. }
  { intros k. by rewrite lookup_empty. }
  split_and!; [done | done |]. intros k. rewrite <- Hm.
  unfold remover_colheita, obter_colheita.
  destruct (list_find _ _) as [[i x]|]; cbn [snd fmap option_fmap option_map].
  - symmetry. by apply bool_decide_eq_true.
  - symmetry. apply bool_decide_eq_false. by intros [? ?].
Qed.

End remocao.

Lemma remover_colheita_busca_witness :
  NoDup (colheita.id_lote <$>
           (colheita_service.remover_colheita [colheita_A1; colheita_B2] "A1").1)
  /\ colheita_service.obter_colheita
       (colheita_service.remover_colheita [colheita_A1; colheita_B2] "A1").1 "A1" = None.
Proof.
  apply (proj2 (remover_colheita_busca [colheita_A1; colheita_B2] "A1")).
  apply (NoDup_cons_2 "A1" ["B2"]); [|apply NoDup_singleton].
  intros H. apply list_elem_of_singleton in H. discriminate H.
Defined.

(** ** Saving and loading *)

Section ida_e_volta.
Import colheita colheita_service.
Context {F : Type} `{!Aritmetica F}.
Variable float_of_str : string -> option F.

Lemma mapM_de_dict_para_dict (cfg : config F) (self : ColheitaService F) :
  Forall (bem_formada cfg) self ->
  mapM (de_dict float_of_str cfg) ((fun c => PDict (para_dict c)) <$> self) = Ok self.
Proof.
  induction 1 as [|c l Hc Hl IH]; [reflexivity|].
  rewrite fmap_cons. cbn [mapM].
  rewrite (de_dict_para_dict_bem_formada float_of_str cfg c Hc).
  cbn [mbind result_bind]. rewrite IH. reflexivity.
Qed.

(** X13: what [salvar_json] hands to [json.dump], read back unchanged by
    [json.load], is loaded whole by [carregar_json]: when every record of the
    saved store passes the checks of the constructor under the configuration
    in force, the call returns [True] and the store becomes the saved one,
    whatever it held before. *)
Theorem carregar_json_apos_salvar_json (cfg : config F)
    (self outro : ColheitaService F) :
  Forall (bem_formada cfg) self ->
  carregar_json float_of_str cfg outro (Conteudo (salvar_json self)) = (self, true).
Proof.
  intros H. unfold carregar_json, salvar_json. cbn [py_iter mbind result_bind].
  by rewrite mapM_de_dict_para_dict.
Qed.

End ida_e_volta.

Lemma carregar_json_apos_salvar_json_witness :
  colheita_service.carregar_json float_sem_str cfg_exemplo [colheita_L1]
    (colheita_service.Conteudo
       (colheita_service.salvar_json [colheita_A1_espacos; colheita_B2]))
  = ([colheita_A1_espacos; colheita_B2], true).
Proof.
  apply carregar_json_apos_salvar_json.
  constructor; [|constructor; [|constructor]];
    (unfold bem_formada; split_and!; try (vm_compute; reflexivity); repeat constructor).
Defined.

(** ** Statistics without a comparison *)

Section estatisticas_mais.
Import colheita colheita_service.
Context {F : Type} `{!Aritmetica F}.

Implicit Types (self : ColheitaService F).

(** X14: a store that is not empty and has records of one type only, or of
    neither.  With manual records only there is one recommendation, asking
    for mechanised records; the mechanised mean is the integer 0 and the
    difference returned is the rounded absolute value of the manual mean
    itself.  With mechanised records only it is the other way round.  With
    records of neither type the list of recommendations is empty and the
    difference is the integer 0, while the total counts every record. *)
Theorem recomendacoes_sem_comparacao self :
  let manuais := filter (fun c => tipo c = "manual") self in
  let mecanicas := filter (fun c => tipo c = "mecanica") self in
  let media l := f_div (soma_eficiencia l) (f_of_Z (len l)) in
  self <> [] ->
  (manuais <> [] -> mecanicas = [] ->
     calcular_estatisticas self !! "recomendacoes"
     = Some (PList [PStr "Existem apenas registros de colheita manual. Considere registrar colheitas mecânicas para comparação."])
     /\ calcular_estatisticas self !! "mecanica" = Some (estatisticas_tipo 0 (PInt 0))
     /\ calcular_estatisticas self !! "diferenca"
        = Some (PFloat (f_round2 (f_abs (f_sub (media manuais) (f_of_Z 0))))))
  /\ (manuais = [] -> mecanicas <> [] ->
     calcular_estatisticas self !! "recomendacoes"
     = Some (PList [PStr "Existem apenas registros de colheita mecânica. Considere registrar colheitas manuais para comparação."])
     /\ calcular_estatisticas self !! "manual" = Some (estatisticas_tipo 0 (PInt 0))
     /\ calcular_estatisticas self !! "diferenca"
        = Some (PFloat (f_round2 (f_abs (f_sub (f_of_Z 0) (media mecanicas))))))
  /\ (manuais = [] -> mecanicas = [] ->
     calcular_estatisticas self !! "recomendacoes" = Some (PList [])
     /\ calcular_estatisticas self !! "diferenca" = Some (PInt 0)
     /\ calcular_estatisticas self !! "total" = Some (PInt (len self))
     /\ (0 < len self)%Z).
Proof.
  intros manuais mecanicas media Hne.
  assert (Hnv : nao_vazia self = true) by (by destruct self).
  unfold calcular_estatisticas. rewrite Hnv. cbn [negb]. fold manuais mecanicas.
  split_and!.
  - intros Hman Hmec. rewrite Hmec.
    assert (Hm : nao_vazia manuais = true) by (by destruct manuais).
    unfold media_eficiencia. rewrite Hm. cbn [nao_vazia andb].
    cbn [py_sub py_abs py_round num_val].
    split_and!; reflexivity.
  - intros Hman Hmec. rewrite Hman.
    assert (Hm : nao_vazia mecanicas = true) by (by destruct mecanicas).
    unfold media_eficiencia. rewrite Hm. cbn [nao_vazia andb].
    cbn [py_sub py_abs py_round num_val].
    split_and!; reflexivity.
  - intros Hman Hmec. rewrite Hman, Hmec.
    unfold media_eficiencia. cbn [nao_vazia andb py_sub py_abs py_round].
    split_and!; try reflexivity.
    destruct self; [done|]. unfold len. cbn [length]. lia.
Qed.

End estatisticas_mais.

Lemma recomendacoes_sem_comparacao_witness :
  colheita_service.calcular_estatisticas [colheita_A1] !! "recomendacoes"
  = Some (PList [PStr "Existem apenas registros de colheita manual. Considere registrar colheitas mecânicas para comparação."])
  /\ colheita_service.calcular_estatisticas [colheita_A1] !! "mecanica"
     = Some (colheita_service.estatisticas_tipo 0 (PInt 0))
  /\ colheita_service.calcular_estatisticas [colheita_A1] !! "diferenca"
     = Some (PFloat 90%float).
Proof.
  exact (proj1 (recomendacoes_sem_comparacao [colheita_A1] ltac:(discriminate))
           ltac:(vm_compute; discriminate) ltac:(vm_compute; reflexivity)).
Defined.

(** *** In exact arithmetic *)

Section medias_exatas.
Import colheita colheita_service.

Implicit Types (self l : ColheitaService Q).







End medias_exatas.


(** ** Reading from the console *)

Section entradas.
Import colheita colheita_service.
Context {F : Type} `{!Aritmetica F}.

Lemma py_int_so_ValueError (s : string) (e : exn) :
  py_int s = Raise e -> is_ValueError e = true.
Proof.
  unfold py_int. destruct (separa_sinal (strip s)) as [neg body].
  destruct (is_empty body); [by intros [= <-]|].
  destruct (digits_value 0 body); [discriminate | by intros [= <-]].
Qed.

Lemma mapM_so_ValueError {A B} (f : A -> result B) (l : list A) (e : exn) :
  (forall x e', f x = Raise e' -> is_ValueError e' = true) ->
  mapM f l = Raise e -> is_ValueError e = true.
Proof.
  intros Hf. induction l as [|x l IH]; [discriminate|].
  cbn [mapM]. destruct (f x) as [y|e1] eqn:Hx.
  - cbn [mbind result_bind]. destruct (mapM f l) as [ys|e2]; [discriminate|].
    cbn [mbind result_bind]. intros [= <-]. by apply IH.
  - cbn [mbind result_bind]. intros [= <-]. by eapply Hf.
Qed.

(** The test of the day, month and year shared by [validar_entrada_data] and
    [Colheita._validar_data]: what is returned on success does not matter to
    whether it succeeds, and it fails with [ValueError] only. *)
Lemma data_do_calendario {A} (s : string) (a : A) :
  match (partes ← mapM py_int (split_barra s);
         match partes with
         | [dia; mes; ano] => _ ← datetime ano mes dia; Ok a
         | _ => Raise (ValueError Conversao)
         end) with
  | Ok a' =>
      a' = a
      /\ (partes ← mapM py_int (split_barra s);
          match partes with
          | [dia; mes; ano] => _ ← datetime ano mes dia; Ok true
          | _ => Raise (ValueError Conversao)
          end) = Ok true
  | Raise e => is_ValueError e = true
  end.
Proof.
  destruct (mapM py_int (split_barra s)) as [partes|e] eqn:Hm.
  - cbn [mbind result_bind].
    destruct partes as [|dia [|mes [|ano [|? ?]]]]; try reflexivity.
    unfold datetime. destruct (_ && _)%bool; cbn [mbind result_bind]; done.
  - cbn [mbind result_bind].
    eapply mapM_so_ValueError; [|exact Hm]. apply py_int_so_ValueError.
Qed.

(** X16: [validar_entrada_numerica] returns the conversion of the first line
    that converts and is neither below the minimum nor above the maximum,
    leaving the lines after it unread; the lines before it were refused; and
    it never raises, it can only run out of input. *)
Theorem validar_entrada_numerica_devolve (tipo : string -> option F)
    (minimo maximo : option F) (linhas : list string) :
  match validar_entrada_numerica tipo minimo maximo linhas with
  | Devolve valor resto =>
      exists antes l,
        linhas = antes ++ l :: resto /\ tipo l = Some valor
        /\ (forall m, minimo = Some m -> f_ltb valor m = false)
        /\ (forall m, maximo = Some m -> f_ltb m valor = false)
        /\ validar_entrada_numerica tipo minimo maximo antes = FimDaEntrada
  | Levanta _ => False
  | FimDaEntrada =>
      Forall (fun l => forall v, tipo l = Some v ->
                (exists m, minimo = Some m /\ f_ltb v m = true)
                \/ (exists m, maximo = Some m /\ f_ltb m v = true)) linhas
  end.
Proof.
  induction linhas as [|l resto IH]; [constructor|].
  cbn [validar_entrada_numerica].
  destruct (tipo l) as [v|] eqn:Hl.
  - destruct (match minimo with Some m => f_ltb v m | None => false end) eqn:Hmin.
    + destruct (validar_entrada_numerica tipo minimo maximo resto) as [x r| |].
      * destruct IH as (antes & l' & -> & Hl' & H1 & H2 & H3).
        exists (l :: antes), l'. split_and!; try done.
        cbn [validar_entrada_numerica]. by rewrite Hl, Hmin.
      * done.
      * constructor; [|done]. intros v' Hv'. left.
        destruct minimo as [m|]; [|discriminate]. exists m. split; congruence.
    + destruct (match maximo with Some m => f_ltb m v | None => false end) eqn:Hmax.
      * destruct (validar_entrada_numerica tipo minimo maximo resto) as [x r| |].
        -- destruct IH as (antes & l' & -> & Hl' & H1 & H2 & H3).
           exists (l :: antes), l'. split_and!; try done.
           cbn [validar_entrada_numerica]. by rewrite Hl, Hmin, Hmax.
        -- done.
        -- constructor; [|done]. intros v' Hv'. right.
           destruct maximo as [m|]; [|discriminate]. exists m. split; congruence.
      * exists [], l. split_and!; try done.
        -- by intros m ->.
        -- by intros m ->.
  - destruct (validar_entrada_numerica tipo minimo maximo resto) as [x r| |].
    + destruct IH as (antes & l' & -> & Hl' & H1 & H2 & H3).
      exists (l :: antes), l'. split_and!; try done.
      cbn [validar_entrada_numerica]. by rewrite Hl.
    + done.
    + constructor; [|done]. intros v' Hv'. congruence.
Qed.

(** X17: a date returned by [validar_entrada_data] is today's date, given for
    an empty line when the date is optional, or a line typed that
    [Colheita._validar_data] accepts; the function never raises. *)
Theorem validar_entrada_data_devolve (hoje : string) (obrigatorio : bool)
    (linhas : list string) :
  match validar_entrada_data hoje obrigatorio linhas with
  | Devolve data resto =>
      (obrigatorio = false /\ data = hoje /\ "" ∈ linhas)
      \/ (data ∈ linhas /\ _validar_data (PStr data : pyval F) = Ok true)
  | Levanta _ => False
  | FimDaEntrada => True
  end.
Proof.
  induction linhas as [|entrada resto IH]; [done|].
  cbn [validar_entrada_data].
  assert (Hrec : match validar_entrada_data hoje obrigatorio resto with
                 | Devolve data resto0 =>
                     (obrigatorio = false /\ data = hoje /\ "" ∈ entrada :: resto)
                     \/ (data ∈ entrada :: resto
                         /\ _validar_data (PStr data : pyval F) = Ok true)
                 | Levanta _ => False
                 | FimDaEntrada => True
                 end).
  { destruct (validar_entrada_data hoje obrigatorio resto); [|done..].
    destruct IH as [(? & ? & ?) | (? & ?)]; [left | right];
      split_and!; try done; by right. }
  destruct (is_empty entrada) eqn:Hvazia.
  - destruct obrigatorio; [exact Hrec|].
    left. split_and!; [done..|].
    destruct entrada; [left | discriminate].
  - destruct (padrao_match entrada) eqn:Hp; cbn [negb]; [|exact Hrec].
    pose proof (data_do_calendario entrada entrada) as Hd.
    destruct (mapM py_int (split_barra entrada) ≫= _) as [d|e] eqn:He.
    + destruct Hd as [-> Hok]. right. split; [left|].
      unfold _validar_data. rewrite Hp. cbn [negb]. by rewrite Hok.
    + destruct e; try discriminate Hd. exact Hrec.
Qed.

(** X18: the type returned by [validar_entrada_tipo_colheita] is the
    lower-case form of the first line whose lower-case form is a configured
    type; it is one of the configured types, [Colheita._validar_tipo] accepts
    it, and the constructor stores it unchanged. *)
Theorem validar_entrada_tipo_colheita_devolve (cfg : config F) (linhas : list string) :
  match validar_entrada_tipo_colheita cfg linhas with
  | Devolve tipo resto =>
      exists antes l,
        linhas = antes ++ l :: resto /\ tipo = lower l
        /\ Forall (fun l' => lower l' ∉ TIPOS_COLHEITA cfg) antes
        /\ tipo ∈ TIPOS_COLHEITA cfg
        /\ _validar_tipo cfg (PStr tipo) = Ok true
        /\ py_lower (PStr tipo : pyval F) = Ok tipo
  | Levanta _ => False
  | FimDaEntrada => Forall (fun l' => lower l' ∉ TIPOS_COLHEITA cfg) linhas
  end.
Proof.
  induction linhas as [|l resto IH]; [constructor|].
  cbn [validar_entrada_tipo_colheita].
  destruct (bool_decide (lower l ∈ TIPOS_COLHEITA cfg)) eqn:Hl.
  - apply bool_decide_eq_true in Hl.
    exists [], l. split_and!; try done.
    + unfold _validar_tipo. cbn [py_lower mbind result_bind].
      rewrite lower_idem. f_equal. by apply bool_decide_eq_true.
    + cbn [py_lower]. by rewrite lower_idem.
  - apply bool_decide_eq_false in Hl.
    destruct (validar_entrada_tipo_colheita cfg resto) as [t r| |]; [|done|].
    + destruct IH as (antes & l' & -> & Ht & Hantes & Hin & Hv & Hlow).
      exists (l :: antes), l'. split_and!; try done. by constructor.
    + by constructor.
Qed.

End entradas.

(** ** main.py: recording a harvest *)

Section registro.
Context {F : Type} `{!Aritmetica F}.
Variable float_of_str : string -> option F.
Variable strptime_dmY : string -> bool.
Variable hoje : string.

Local Abbreviation registrar_dados := (main.registrar_dados float_of_str strptime_dmY hoje).
Local Abbreviation registrar_colheita :=
  (main.registrar_colheita float_of_str strptime_dmY hoje).

(** X19: the two efficiency calculations agree whenever the percentage
    harvested is not above 100: on a forecast that is not positive, and on
    every other input for which the test [eficiencia > 100] of the
    constructor fails. *)
Theorem calculos_concordam (previsto colhido : F) :
  (f_leb previsto (f_of_Z 0) = false ->
   f_ltb (f_of_Z 100) (f_mul (f_div colhido previsto) (f_of_Z 100)) = false) ->
  main.calcular_eficiencia previsto colhido
  = colheita._calcular_eficiencia previsto colhido.
Proof.
  intros H. unfold main.calcular_eficiencia, colheita._calcular_eficiencia, py_div.
  destruct (f_leb previsto (f_of_Z 0)); [reflexivity|].
  destruct (f_eqb previsto (f_of_Z 0)); [reflexivity|].
  cbn [mbind result_bind]. by rewrite H.
Qed.

Lemma ler_tipo_devolve (linhas : list string) :
  match main.ler_tipo linhas with
  | Devolve tipo resto => tipo ∈ ["manual"; "mecanica"]
  | Levanta _ => False
  | FimDaEntrada => Forall (fun l => lower l ∉ ["manual"; "mecanica"]) linhas
  end.
Proof.
  induction linhas as [|l resto IH]; [constructor|].
  cbn [main.ler_tipo].
  destruct (bool_decide (lower l ∈ ["manual"; "mecanica"])) eqn:Hl.
  - by apply bool_decide_eq_true in Hl.
  - apply bool_decide_eq_false in Hl.
    destruct (main.ler_tipo resto); [done | done | by constructor].
Qed.

Lemma ler_tipo_sem_tipo (linhas : list string) :
  Forall (fun l => lower l ∉ ["manual"; "mecanica"]) linhas ->
  main.ler_tipo linhas = FimDaEntrada.
Proof.
  induction 1 as [|l resto Hl _ IH]; [reflexivity|].
  cbn [main.ler_tipo]. by rewrite (bool_decide_eq_false_2 _ Hl).
Qed.

(** X20: once the lot is settled, [registrar_colheita] changes the list in
    one way only: it appends one entry, with the id typed, a type that is
    [manual] or [mecanica], and the efficiency and loss that
    [calcular_eficiencia] gives for the two amounts.  If the call ends before
    that, the list is as it was; if it returns, the entry was appended. *)
Theorem registrar_dados_efeito (id_lote : string) (colheitas : list (pyval F))
    (linhas : list string) :
  ((registrar_dados id_lote colheitas linhas).1 = colheitas
   /\ forall u resto, (registrar_dados id_lote colheitas linhas).2 <> Devolve u resto)
  \/ exists tipo data previsto colhido eficiencia perda obs,
       (registrar_dados id_lote colheitas linhas).1
       = colheitas ++ [PDict (main.dicionario_colheita id_lote tipo data previsto
                                colhido eficiencia perda obs)]
       /\ tipo ∈ ["manual"; "mecanica"]
       /\ main.calcular_eficiencia previsto colhido = Ok (eficiencia, perda).
Proof.
  unfold main.registrar_dados.
  pose proof (ler_tipo_devolve linhas) as Htipo.
  destruct (main.ler_tipo linhas) as [tipo l1| |]; cbn [apos]; [|by left..].
  destruct (main.validar_numero float_of_str l1) as [previsto l2| |];
    cbn [apos]; [|by left..].
  destruct (main.validar_numero float_of_str l2) as [colhido l3| |];
    cbn [apos]; [|by left..].
  destruct (main.validar_data strptime_dmY hoje l3) as [data l4| |];
    cbn [apos]; [|by left..].
  destruct (input l4) as [obs l5| |]; cbn [apos]; [|by left..].
  destruct (main.calcular_eficiencia previsto colhido) as [[e p]|err] eqn:Hcalc;
    [|by left].
  right. exists tipo, data, previsto, colhido, e, p, obs.
  split_and!; [|done..].
  by destruct (input l5).
Qed.

Lemma procurar_lote_Some (id_lote : string) (colheitas : list (pyval F)) (i : nat) :
  main.procurar_lote id_lote colheitas = Ok (Some i) ->
  exists d, colheitas !! i = Some (PDict d) /\ d !! "id_lote" = Some (PStr id_lote).
Proof.
  revert i. induction colheitas as [|c resto IH]; intros i; [discriminate|].
  cbn [main.procurar_lote].
  destruct (main.item c "id_lote") as [v|e] eqn:Hv; [|discriminate].
  cbn [mbind result_bind].
  destruct (main.igual_a_str v id_lote) eqn:Heq.
  - intros [= <-]. unfold main.item in Hv. destruct c as [| | | | | |d]; try discriminate.
    exists d. split; [reflexivity|].
    destruct (d !! "id_lote") as [w|]; [|discriminate]. injection Hv as ->.
    unfold main.igual_a_str in Heq. destruct v as [| | | |t| |]; try discriminate.
    by apply String.eqb_eq in Heq as ->.
  - destruct (main.procurar_lote id_lote resto) as [[j|]|]; try discriminate.
    cbn [mbind result_bind option_map]. intros [= <-].
    destruct (IH j eq_refl) as (d & Hd & Hid). by exists d.
Qed.

(** X21: overwriting a lot is not atomic.  When the id typed is already in
    the list, at index [i], any answer other than [s] or [S] leaves the list
    as it is; after [s] the old entry is deleted before anything else is
    asked, so if the input ends before a valid type is typed the call ends
    with the old entry gone and nothing in its place. *)
Theorem registrar_colheita_sobrescrita (colheitas : list (pyval F))
    (id_lote resposta : string) (linhas : list string) (i : nat) :
  main.procurar_lote id_lote colheitas = Ok (Some i) ->
  (exists d, colheitas !! i = Some (PDict d) /\ d !! "id_lote" = Some (PStr id_lote))
  /\ (lower resposta <> "s" ->
      registrar_colheita colheitas (id_lote :: resposta :: linhas)
      = (colheitas, Devolve () linhas))
  /\ (lower resposta = "s" ->
      registrar_colheita colheitas (id_lote :: resposta :: linhas)
      = registrar_dados id_lote (delete i colheitas) linhas)
  /\ (lower resposta = "s" ->
      Forall (fun l => lower l ∉ ["manual"; "mecanica"]) linhas ->
      registrar_colheita colheitas (id_lote :: resposta :: linhas)
      = (delete i colheitas, FimDaEntrada)
      /\ S (length (delete i colheitas)) = length colheitas).
Proof.
  intros Hi. pose proof (procurar_lote_Some _ _ _ Hi) as Hd.
  split; [exact Hd|].
  unfold main.registrar_colheita. cbn [input apos]. rewrite Hi. cbn [input apos].
  split_and!.
  - intros Hr. apply String.eqb_neq in Hr. by rewrite Hr.
  - intros Hr. apply String.eqb_eq in Hr. by rewrite Hr.
  - intros Hr Hl. apply String.eqb_eq in Hr. rewrite Hr. cbn [negb].
    unfold main.registrar_dados. rewrite (ler_tipo_sem_tipo _ Hl). cbn [apos].
    split; [reflexivity|].
    destruct Hd as (d & Hd & _). apply lookup_lt_Some in Hd.
    rewrite length_delete by (by eapply lookup_lt_is_Some_2). lia.
Qed.

End registro.

Lemma calculos_concordam_witness :
  main.calcular_eficiencia 100%float 80%float
  = colheita._calcular_eficiencia 100%float 80%float.
Proof.
  apply calculos_concordam. intros _. vm_compute. reflexivity.
Defined.

Lemma registrar_colheita_sobrescrita_witness :
  main.registrar_colheita float_sem_str (fun _ => true) "01/03/2024" lista_main
    ["B2"; "S"; "talvez"]
  = ([PDict (colheita.para_dict colheita_A1)], FimDaEntrada).
Proof.
  destruct (registrar_colheita_sobrescrita float_sem_str (fun _ => true) "01/03/2024"
              lista_main "B2" "S" ["talvez"] 1%nat eq_refl) as (_ & _ & _ & H).
  apply H; [reflexivity|].
  constructor; [|constructor]. intros Hin.
  apply elem_of_cons in Hin as [Hin|Hin]; [discriminate|].
  apply elem_of_cons in Hin as [Hin|Hin]; [discriminate|].
  by apply elem_of_nil in Hin.
Defined.

(** ** main.py and colheita.py: the same dictionary *)

Section mesma_forma.
Import colheita.
Context {F : Type} `{!Aritmetica F}.
Variable float_of_str : string -> option F.

(** X22: the entry that [registrar_colheita] of [main.py] appends has the
    shape of [para_dict]; [de_dict] loads it, when its fields pass the checks
    of the constructor, with the efficiency and the loss as [main.py] stored
    them, neither recomputed nor limited to 100. *)
Theorem entrada_de_main_carregada (cfg : config F) (r : Colheita F) (o : string) :
  obs r = PStr o -> bem_formada cfg r ->
  main.dicionario_colheita (id_lote r) (tipo r) (data r) (previsto r) (colhido r)
    (eficiencia r) (perda r) o = para_dict r
  /\ de_dict float_of_str cfg
       (PDict (main.dicionario_colheita (id_lote r) (tipo r) (data r) (previsto r)
                 (colhido r) (eficiencia r) (perda r) o)) = Ok r.
Proof.
  intros Ho Hr.
  assert (E : main.dicionario_colheita (id_lote r) (tipo r) (data r) (previsto r)
                (colhido r) (eficiencia r) (perda r) o = para_dict r).
  { unfold main.dicionario_colheita, para_dict. by rewrite Ho. }
  split; [exact E|]. rewrite E. by apply de_dict_para_dict_bem_formada.
Qed.

End mesma_forma.

Lemma entrada_de_main_carregada_witness :
  main.calcular_eficiencia 50%float 60%float = Ok (120%float, (-20)%float)
  /\ colheita.de_dict float_sem_str cfg_exemplo
       (PDict (main.dicionario_colheita "L9" "manual" "01/03/2024" 50%float 60%float
                 120%float (-20)%float "")) = Ok colheita_L9.
Proof.
  split; [vm_compute; reflexivity|].
  apply (entrada_de_main_carregada float_sem_str cfg_exemplo colheita_L9 "");
    [reflexivity|].
  unfold bem_formada; split_and!; try (vm_compute; reflexivity); repeat constructor.
Defined.

(** ** Loading a file that does not hold a list *)

Section carga_sem_lista.
Import colheita colheita_service.
Context {F : Type} `{!Aritmetica F}.
Variable float_of_str : string -> option F.

Lemma mapM_de_dict_textos (cfg : config F) (textos : list string) :
  mapM (de_dict float_of_str cfg) (PStr <$> textos)
  = match textos with [] => Ok [] | _ => Raise TypeError end.
Proof. by destruct textos. Qed.

(** X8: a file whose JSON value is not a list.  An empty object and an empty
    string are iterated as nothing: [carregar_json] returns [True] and empties
    the store.  Any other value (a number, a boolean, [null], an object with
    keys, a string with characters) makes it return [False] and leave the
    store as it is. *)
Theorem carregar_json_sem_lista (cfg : config F) (self : ColheitaService F)
    (dados : pyval F) :
  (forall l, dados <> PList l) ->
  carregar_json float_of_str cfg self (Conteudo dados)
  = match dados with
    | PStr s => if is_empty s then ([], true) else (self, false)
    | PDict d => if bool_decide (d = ∅) then ([], true) else (self, false)
    | _ => (self, false)
    end.
Proof.
  intros Hl. unfold carregar_json.
  destruct dados as [| | | |s|l|d]; try reflexivity.
  - cbn [py_iter mbind result_bind]. rewrite mapM_de_dict_textos.
    by destruct s.
  - by destruct (Hl l).
  - cbn [py_iter mbind result_bind]. rewrite mapM_de_dict_textos.
    destruct (bool_decide (d = ∅)) eqn:Hd.
    + apply bool_decide_eq_true in Hd as ->. by rewrite map_to_list_empty.
    + apply bool_decide_eq_false in Hd.
      destruct (map_to_list d) as [|[k v] resto] eqn:Hm; [|reflexivity].
      by apply map_to_list_empty_iff in Hm.
Qed.

End carga_sem_lista.

Lemma carregar_json_sem_lista_witness :
  colheita_service.carregar_json float_sem_str cfg_exemplo [colheita_A1]
    (colheita_service.Conteudo (PDict ∅)) = ([], true).
Proof.
  exact (carregar_json_sem_lista float_sem_str cfg_exemplo [colheita_A1] (PDict ∅)
           ltac:(discriminate)).
Defined.
